(** * The default resource manager of mesos-framework-sdk

    A shallow embedding of package [manager] (the offer pool, the per-task
    filter and strategy registries and the first-fit [Assign] scan) together
    with the properties its specification states about it.

    Go's [float64] is Rocq's primitive binary64 [float]; the two
    [structures.DistributedMap] registries are finite maps keyed by the task
    name; the slice of [*MesosOfferResources] is a list that is updated by
    index, which is what a write through the pointer held by the range loop
    amounts to (every pool entry is a fresh allocation of [AddOffers], so no
    two entries alias).  A run-time panic of the Go code is the [Panic]
    outcome of [result]. *)

From Stdlib Require Import Floats Ascii String NArith.
From stdpp Require Import gmap strings list.

Local Open Scope string_scope.

(** ** Outcomes: a normal return or a run-time panic *)

Inductive result (A : Type) : Type :=
  | Return (a : A)
  | Panic (msg : string).

Arguments Return {A} a.
Arguments Panic {A} msg.

#[global] Instance result_bind : MBind result := λ A B k r,
  match r with
  | Return a => k a
  | Panic msg => Panic msg
  end.

Definition index_out_of_range : string := "runtime error: index out of range".

(** ** Package [strings]

    [ToLower] as the library has it: a string of ASCII bytes only has its
    bytes A-Z lower-cased, any other string goes through
    [Map(unicode.ToLower, s)].  The Unicode case tables behind that call are
    not part of this repository; the call is the field [Map_ToLower] of
    [Unicode], and everything below holds whatever it is.

    [EqualFold] is only ever called with "mux" as its second argument; no
    rune outside ASCII folds to m, u or x, so comparing the strings with
    their ASCII letters lower-cased decides it as the library does. *)

Module strings.

Class Unicode : Type := {
  (* strings.Map(unicode.ToLower, s) *)
  Map_ToLower : string → string
}.

Definition lower (c : ascii) : ascii :=
  let n := N_of_ascii c in
  if ((65 <=? n) && (n <=? 90))%N then ascii_of_N (n + 32) else c.

Fixpoint lowerASCII (s : string) : string :=
  match s with
  | EmptyString => EmptyString
  | String c s' => String (lower c) (lowerASCII s')
  end.

(** No byte is [utf8.RuneSelf] or above. *)
Fixpoint isASCII (s : string) : bool :=
  match s with
  | EmptyString => true
  | String c s' => (N_of_ascii c <? 128)%N && isASCII s'
  end.

Definition ToLower `{Unicode} (s : string) : string :=
  if isASCII s then lowerASCII s else Map_ToLower s.

Definition EqualFold (s t : string) : bool :=
  String.eqb (lowerASCII s) (lowerASCII t).

End strings.

(** A stand-in for the Unicode tables where a closed example is run; the
    examples are on ASCII text, which never gets to it. *)
Definition sample_unicode : strings.Unicode :=
  {| strings.Map_ToLower := λ s, s |}.

(** ** Package [container]

    [ParseContainer] builds a container descriptor from its JSON form.  The
    parsers of packages [network] and [volume] and the constructors of
    package [resources] are its collaborators; they are taken as they are
    called, a parser returning a value and an error. *)

Module container.

Inductive ContainerInfo_Type : Set :=
  | ContainerInfo_DOCKER
  | ContainerInfo_MESOS.

Class Collaborators : Type := {
  NetworkJSON : Type;
  VolumeJSON : Type;
  NetworkInfos : Type;
  Volume : Type;
  Image : Type;
  MesosInfo : Type;
  DockerInfo : Type;
  (* network.ParseNetworkJSON *)
  ParseNetworkJSON : NetworkJSON → NetworkInfos * option string;
  (* volume.ParseVolumeJSON *)
  ParseVolumeJSON : list VolumeJSON → list Volume * option string;
  (* resources.CreateImage(mesos_v1.Image_DOCKER.Enum(), name) *)
  CreateImage : string → Image;
  (* resources.CreateMesosInfo *)
  CreateMesosInfo : Image → MesosInfo;
  (* resources.CreateDockerInfo(image, BRIDGE, nil, nil, nil) *)
  CreateDockerInfo : Image → DockerInfo
}.

Section ParseContainer.

Context `{Collaborators} `{U : strings.Unicode}.

(** [task.ContainerJSON], the fields read here; a pointer is an option. *)
Record ContainerJSON : Type := {
  ImageName : option string;
  ContainerType : option string;
  Network : NetworkJSON;
  Volumes : list VolumeJSON
}.

Record ContainerInfo : Type := {
  Type_ : ContainerInfo_Type;
  NetworkInfos_ : NetworkInfos;
  Volumes_ : list Volume;
  Mesos : option MesosInfo;
  Docker : option DockerInfo
}.

Definition nil_dereference : string :=
  "runtime error: invalid memory address or nil pointer dereference".

(** [*p] *)
Definition deref (p : option string) : result string :=
  match p with
  | Some v => Return v
  | None => Panic nil_dereference
  end.

Definition ParseContainer (c : option ContainerJSON)
    : result (option ContainerInfo * option string) :=
  match c with
  | None => Return (None, None)
  | Some c =>
    (* the error of the network parser is looked at and dropped *)
    let '(networks, _) := ParseNetworkJSON (Network c) in
    let '(vol, err) :=
      if Nat.ltb 0 (length (Volumes c)) then ParseVolumeJSON (Volumes c)
      else ([], None) in
    match err with
    | Some err => Return (None, Some ("Error parsing volume JSON: " ++ err))
    | None =>
      name ← deref (ImageName c);
      let container :=
        {| Type_ := ContainerInfo_MESOS; NetworkInfos_ := networks;
           Volumes_ := vol; Mesos := Some (CreateMesosInfo (CreateImage name));
           Docker := None |} in
      match ImageName c with
      | None =>
        Return (Some {| Type_ := Type_ container;
                        NetworkInfos_ := NetworkInfos_ container;
                        Volumes_ := Volumes_ container; Mesos := None;
                        Docker := Docker container |}, None)
      | Some _ =>
        match ContainerType c with
        | Some ty =>
          if String.eqb (strings.ToLower ty) "docker" then
            name ← deref (ImageName c);
            Return (Some {| Type_ := ContainerInfo_DOCKER;
                            NetworkInfos_ := NetworkInfos_ container;
                            Volumes_ := Volumes_ container;
                            Mesos := Mesos container;
                            Docker := Some (CreateDockerInfo (CreateImage name)) |},
                    None)
          else Return (Some container, None)
        | None => Return (Some container, None)
        end
      end
    end
  end.

End ParseContainer.

Arguments ContainerJSON {_}.
Arguments ContainerInfo {_}.

End container.

(** Collaborators to run [ParseContainer] with: every descriptor is a string,
    an empty network name or an empty volume name is a parse error. *)
#[local] Instance sample_collaborators : container.Collaborators := {|
  container.NetworkJSON := string;
  container.VolumeJSON := string;
  container.NetworkInfos := list string;
  container.Volume := string;
  container.Image := string;
  container.MesosInfo := string;
  container.DockerInfo := string;
  container.ParseNetworkJSON n :=
    if String.eqb n "" then ([], Some "no network") else ([n], None);
  container.ParseVolumeJSON vs :=
    if existsb (String.eqb "") vs then ([], Some "empty volume") else (vs, None);
  container.CreateImage name := name;
  container.CreateMesosInfo image := "mesos:" ++ image;
  container.CreateDockerInfo image := "docker:" ++ image
|}.

Definition sample_container (image type : option string) (volumes : list string)
    : container.ContainerJSON :=
  {| container.ImageName := image; container.ContainerType := type;
     container.Network := ""; container.Volumes := volumes |}.

Definition sample_docker_info (image : string)
    : @container.ContainerInfo sample_collaborators :=
  @container.Build_ContainerInfo sample_collaborators
    container.ContainerInfo_DOCKER ([] : list string) ([] : list string)
    (Some ("mesos:" ++ image)) (Some ("docker:" ++ image)).

(** ** Package [mesos_v1]: the parts of the protobuf messages the manager reads

    A field holds what the generated getter returns: [GetName] of a resource,
    [GetScalar().GetValue()], [GetText().GetValue()], [GetType()].  Only the
    disk descriptor keeps its pointer, since the code tests it against nil. *)

Module mesos_v1.

Inductive Value_Type : Set :=
  | Value_SCALAR
  | Value_RANGES
  | Value_SET
  | Value_TEXT.

Inductive Resource_DiskInfo : Set :=
  | DiskInfo (persistence : string).

Record Resource : Set := {
  Resource_Name : string;
  Resource_Scalar : float;
  Resource_Disk : option Resource_DiskInfo
}.

Record Attribute : Set := {
  Attribute_Type : Value_Type;
  Attribute_Text : string;
  Attribute_Scalar : float
}.

Record Offer : Set := {
  Offer_Id : string;
  Offer_Resources : list Resource;
  Offer_Attributes : list Attribute
}.

Record TaskInfo : Set := {
  TaskInfo_Name : string;
  TaskInfo_Resources : list Resource
}.

End mesos_v1.

Import mesos_v1.

Section manager.

Context `{U : strings.Unicode}.

(** ** Package [task]: a filter as [AddFilter] receives it *)

Record Filter : Set := {
  Filter_Type : string;
  Filter_Value : list string
}.

(** ** Package [manager] *)

Record MesosOfferResources : Set := {
  Offer : mesos_v1.Offer;
  Cpu : float;
  Mem : float;
  Disk : option Resource_DiskInfo;
  Accepted : bool
}.

(** [filterOn] and [strategy] are [structures.DistributedMap]s.

    Modelled from the spec: the concurrent map of package [structures] is a
    "thread-safe key/value store" whose "get/set/delete are the only required
    operations"; [Get] of an absent key is nil. *)
Record DefaultResourceManager : Type := {
  offers : list MesosOfferResources;
  filterOn : gmap string (list Filter);
  strategy : gmap string string
}.

Definition with_offers (d : DefaultResourceManager)
    (l : list MesosOfferResources) : DefaultResourceManager :=
  {| offers := l; filterOn := filterOn d; strategy := strategy d |}.

Definition SCALAR := Value_SCALAR.
Definition TEXT := Value_TEXT.
Definition RANGES := Value_RANGES.
Definition SET := Value_SET.

Definition NewDefaultResourceManager : DefaultResourceManager :=
  {| offers := []; filterOn := ∅; strategy := ∅ |}.

Definition clearOffers (d : DefaultResourceManager) : DefaultResourceManager :=
  with_offers d [].

(** One turn of the [switch resource.GetName()] of [AddOffers]. *)
Definition AddOffers_resource (mesosOffer : MesosOfferResources)
    (resource : Resource) : MesosOfferResources :=
  let name := Resource_Name resource in
  if String.eqb name "cpus" then
    {| Offer := Offer mesosOffer; Cpu := Resource_Scalar resource;
       Mem := Mem mesosOffer; Disk := Disk mesosOffer;
       Accepted := Accepted mesosOffer |}
  else if String.eqb name "mem" then
    {| Offer := Offer mesosOffer; Cpu := Cpu mesosOffer;
       Mem := Resource_Scalar resource; Disk := Disk mesosOffer;
       Accepted := Accepted mesosOffer |}
  else if String.eqb name "disk" then
    {| Offer := Offer mesosOffer; Cpu := Cpu mesosOffer;
       Mem := Mem mesosOffer; Disk := Resource_Disk resource;
       Accepted := Accepted mesosOffer |}
  else mesosOffer.

(** The entry [AddOffers] builds for one raw offer: the zero value of the
    struct, the resources projected in order, and the offer reference (set
    last in the source; nothing reads it in between). *)
Definition AddOffers_entry (offer : mesos_v1.Offer) : MesosOfferResources :=
  fold_left AddOffers_resource (Offer_Resources offer)
    {| Offer := offer; Cpu := 0%float; Mem := 0%float; Disk := None;
       Accepted := false |}.

Definition AddOffers (d : DefaultResourceManager)
    (batch : list mesos_v1.Offer) : DefaultResourceManager :=
  fold_left (fun d offer => with_offers d (offers d ++ [AddOffers_entry offer])%list)
    batch (clearOffers d).

Definition HasResources (d : DefaultResourceManager) : bool :=
  Nat.ltb 0 (length (offers d)).

(** [AddFilter] returns the manager it leaves behind and the error ([None] is
    nil); reading [f.Value[0]] of an empty slice panics. *)
Fixpoint AddFilter (d : DefaultResourceManager) (t : TaskInfo)
    (filters : list Filter) : result (DefaultResourceManager * option string) :=
  match filters with
  | [] => Return (d, None)
  | f :: rest =>
    let kind := strings.ToLower (Filter_Type f) in
    if String.eqb kind "ranges" || String.eqb kind "set"
       || String.eqb kind "text" || String.eqb kind "scalar" then
      let entry := {| Filter_Type := Filter_Type f; Filter_Value := Filter_Value f |} in
      let d' :=
        match filterOn d !! TaskInfo_Name t with
        | None =>
          {| offers := offers d;
             filterOn := <[TaskInfo_Name t := [entry]]> (filterOn d);
             strategy := strategy d |}
        | Some list =>
          {| offers := offers d;
             filterOn := <[TaskInfo_Name t := (list ++ [entry])%list]> (filterOn d);
             strategy := strategy d |}
        end in
      AddFilter d' t rest
    else if String.eqb kind "strategy" then
      match Filter_Value f with
      | [] => Panic index_out_of_range
      | v :: _ =>
        AddFilter {| offers := offers d; filterOn := filterOn d;
                     strategy := <[TaskInfo_Name t := v]> (strategy d) |} t rest
      end
    else
      Return (d, Some ("Invalid filter passed in: " ++ Filter_Type f
                       ++ ". Allowed filters are SCALAR, TEXT, SET, RANGES, and STRATEGY."))
  end.

Definition ClearFilters (d : DefaultResourceManager) (t : TaskInfo)
    : DefaultResourceManager :=
  {| offers := offers d;
     filterOn := delete (TaskInfo_Name t) (filterOn d);
     strategy := delete (TaskInfo_Name t) (strategy d) |}.

(** Swap entry [i] with the last one, then drop the last one.  The two index
    expressions are evaluated before either store, and an index outside the
    slice panics. *)
Definition popOffer (d : DefaultResourceManager) (i : nat)
    : result DefaultResourceManager :=
  let n := length (offers d) in
  match offers d !! (n - 1), offers d !! i with
  | Some last, Some cur =>
    Return (with_offers d
              (take (n - 1) (<[i := last]> (<[n - 1 := cur]> (offers d)))))
  | _, _ => Panic index_out_of_range
  end.

(** The loop body returns in its first turn, on either branch. *)
Definition filterOnAttrText (f : list string) (a : Attribute) : bool :=
  match f with
  | [] => false
  | term :: _ =>
    if String.eqb (strings.ToLower term) (strings.ToLower (Attribute_Text a))
    then true else false
  end.

(** The inner loop of [filter]: one filter against the attributes in order.
    The cases SCALAR, SET and RANGES of the switch are empty;
    [filterOnAttrScalar] is called from nowhere and has no part here. *)
Fixpoint filter_attrs (value : list string) (attrs : list Attribute) : bool :=
  match attrs with
  | [] => false
  | attr :: attrs' =>
    match Attribute_Type attr with
    | Value_SCALAR => filter_attrs value attrs'
    | Value_TEXT =>
      if filterOnAttrText value attr then true else filter_attrs value attrs'
    | Value_SET => filter_attrs value attrs'
    | Value_RANGES => filter_attrs value attrs'
    end
  end.

Fixpoint filter (f : list Filter) (offer : mesos_v1.Offer) : bool :=
  match f with
  | [] => false
  | flt :: f' =>
    if filter_attrs (Filter_Value flt) (Offer_Attributes offer) then true
    else filter f' offer
  end.

Definition allocateMemResource (mem : float) (offer : MesosOfferResources)
    : MesosOfferResources * bool :=
  if (0 <=? Mem offer - mem)%float then
    ({| Offer := Offer offer; Cpu := Cpu offer; Mem := (Mem offer - mem)%float;
        Disk := Disk offer; Accepted := Accepted offer |}, true)
  else (offer, false).

Definition allocateCpuResource (cpu : float) (offer : MesosOfferResources)
    : MesosOfferResources * bool :=
  if (0 <=? Cpu offer - cpu)%float then
    ({| Offer := Offer offer; Cpu := (Cpu offer - cpu)%float; Mem := Mem offer;
        Disk := Disk offer; Accepted := Accepted offer |}, true)
  else (offer, false).

Definition allocateDiskResource (resource : Resource) (offer : MesosOfferResources)
    : MesosOfferResources * bool :=
  match Resource_Disk resource with
  | Some disk =>
    ({| Offer := Offer offer; Cpu := Cpu offer; Mem := Mem offer;
        Disk := Some disk; Accepted := Accepted offer |}, true)
  | None => (offer, false)
  end.

(** The loop of [Assign] over the task's resources.  The boolean is false
    when the loop left through [continue L]; the entry is returned as the
    allocations so far have left it. *)
Fixpoint Assign_resources (resources : list Resource) (offer : MesosOfferResources)
    : MesosOfferResources * bool :=
  match resources with
  | [] => (offer, true)
  | resource :: rest =>
    let res := Resource_Scalar resource in
    let name := Resource_Name resource in
    if String.eqb name "cpus" then
      let '(offer', ok) := allocateCpuResource res offer in
      if ok then Assign_resources rest offer' else (offer', false)
    else if String.eqb name "mem" then
      let '(offer', ok) := allocateMemResource res offer in
      if ok then Assign_resources rest offer' else (offer', false)
    else if String.eqb name "disk" then
      Assign_resources rest (fst (allocateDiskResource resource offer))
    else Assign_resources rest offer
  end.

Definition set_Accepted (offer : MesosOfferResources) : MesosOfferResources :=
  {| Offer := Offer offer; Cpu := Cpu offer; Mem := Mem offer;
     Disk := Disk offer; Accepted := true |}.

(** What follows the resource loop once an offer fits: the accepted flag, the
    strategy and the removal. *)
Definition Assign_retain (d : DefaultResourceManager) (mesosTask : TaskInfo)
    (i : nat) (offer : MesosOfferResources) : result DefaultResourceManager :=
  let strategy :=
    match strategy d !! TaskInfo_Name mesosTask with
    | None => "non-mux"
    | Some s => s
    end in
  if negb (strings.EqualFold strategy "mux") then popOffer d i
  else if (Mem offer =? 0)%float || (Cpu offer =? 0)%float then popOffer d i
  else Return d.

(** The range loop of [Assign] from index [i] on; [range] is what is left of
    the slice the loop ranges over, and a write through [offer] is a write to
    slot [i] of the pool. *)
Fixpoint Assign_from (d : DefaultResourceManager) (mesosTask : TaskInfo)
    (i : nat) (range : list MesosOfferResources)
    : result (DefaultResourceManager * (mesos_v1.Offer + string)) :=
  match range with
  | [] =>
    Return (d, inr ("Cannot find a suitable offer for task "
                    ++ TaskInfo_Name mesosTask))
  | offer :: range' =>
    let validOffer :=
      match filterOn d !! TaskInfo_Name mesosTask with
      | Some f => filter f (Offer offer)
      | None => true
      end in
    if negb validOffer then Assign_from d mesosTask (S i) range'
    else
      let '(offer, ok) := Assign_resources (TaskInfo_Resources mesosTask) offer in
      let d := with_offers d (<[i := offer]> (offers d)) in
      if negb ok then Assign_from d mesosTask (S i) range'
      else
        let offer := set_Accepted offer in
        let d := with_offers d (<[i := offer]> (offers d)) in
        d ← Assign_retain d mesosTask i offer;
        Return (d, inl (Offer offer))
  end.

Definition Assign (d : DefaultResourceManager) (mesosTask : TaskInfo)
    : result (DefaultResourceManager * (mesos_v1.Offer + string)) :=
  Assign_from d mesosTask 0 (offers d).

Definition Offers (d : DefaultResourceManager) : list mesos_v1.Offer :=
  map Offer (List.filter (fun o => negb (Accepted o)) (offers d)).

(** ** Notions the properties are stated with *)

(** The filter gate of [Assign] for one pool entry. *)
Definition admits (d : DefaultResourceManager) (t : TaskInfo)
    (o : MesosOfferResources) : bool :=
  match filterOn d !! TaskInfo_Name t with
  | Some f => filter f (Offer o)
  | None => true
  end.

(** The entry passes the gate and every demand of the task fits into it. *)
Definition fits (d : DefaultResourceManager) (t : TaskInfo)
    (o : MesosOfferResources) : bool :=
  admits d t o && snd (Assign_resources (TaskInfo_Resources t) o).

(** An entry as the scan leaves it when it moves on to the next one. *)
Definition scanned (d : DefaultResourceManager) (t : TaskInfo)
    (o : MesosOfferResources) : MesosOfferResources :=
  if admits d t o then fst (Assign_resources (TaskInfo_Resources t) o) else o.

(** The demands of a task under one name, in the order of its list, and a
    quantity less each of them in turn. *)
Definition demands (name : string) (resources : list Resource) : list Resource :=
  List.filter (λ r, String.eqb (Resource_Name r) name) resources.

Definition debit (x : float) (resources : list Resource) : float :=
  fold_left (λ acc r, (acc - Resource_Scalar r)%float) resources x.

(** Two bytes that are the same, or an ASCII capital and its small letter;
    two strings that are so byte by byte. *)
Definition same_letter (c1 c2 : ascii) : bool :=
  let n1 := N_of_ascii c1 in
  let n2 := N_of_ascii c2 in
  ((n1 =? n2)
   || ((65 <=? n1) && (n1 <=? 90) && (n2 =? n1 + 32))
   || ((65 <=? n2) && (n2 <=? 90) && (n1 =? n2 + 32)))%N.

Fixpoint equal_up_to_case (s t : string) : bool :=
  match s, t with
  | EmptyString, EmptyString => true
  | String c s', String c' t' => same_letter c c' && equal_up_to_case s' t'
  | _, _ => false
  end.

Definition all_bytes : list ascii := map ascii_of_nat (seq 0 256).

Definition not_found (t : TaskInfo) : string :=
  "Cannot find a suitable offer for task " ++ TaskInfo_Name t.

(** The kinds [AddFilter] appends to the filter list, the kind it stores as
    the strategy, and the recognised kinds. *)
Definition attribute_kind (f : Filter) : bool :=
  let kind := strings.ToLower (Filter_Type f) in
  String.eqb kind "ranges" || String.eqb kind "set"
  || String.eqb kind "text" || String.eqb kind "scalar".

Definition strategy_kind (f : Filter) : bool :=
  String.eqb (strings.ToLower (Filter_Type f)) "strategy".

Definition recognised_kind (f : Filter) : bool :=
  attribute_kind f || strategy_kind f.

(** [cpu >= 0] and [mem >= 0], as Go compares float64s. *)
Definition nonneg (o : MesosOfferResources) : Prop :=
  (0 <=? Cpu o)%float = true ∧ (0 <=? Mem o)%float = true.

Definition pool_nonneg (d : DefaultResourceManager) : Prop :=
  Forall nonneg (offers d).

(** A raw offer whose [cpus] and [mem] line items are not negative. *)
Definition raw_nonneg (offer : mesos_v1.Offer) : Prop :=
  Forall (λ r, Resource_Name r = "cpus" ∨ Resource_Name r = "mem" →
               (0 <=? Resource_Scalar r)%float = true)
         (Offer_Resources offer).

(** One call of an exported method that returns normally.  [Offers] and
    [HasResources] only read the manager. *)
Inductive step : DefaultResourceManager → DefaultResourceManager → Prop :=
  | step_AddOffers d batch :
      Forall raw_nonneg batch → step d (AddOffers d batch)
  | step_Assign d t d' r :
      Assign d t = Return (d', r) → step d d'
  | step_AddFilter d t filters d' e :
      AddFilter d t filters = Return (d', e) → step d d'
  | step_ClearFilters d t :
      step d (ClearFilters d t)
  | step_Offers d (l : list mesos_v1.Offer) :
      Offers d = l → step d d.

Inductive reachable : DefaultResourceManager → Prop :=
  | reachable_new : reachable NewDefaultResourceManager
  | reachable_step d d' : reachable d → step d d' → reachable d'.

(** ** Sample data *)

Definition scalar_resource (name : string) (v : float) : Resource :=
  {| Resource_Name := name; Resource_Scalar := v; Resource_Disk := None |}.

Definition disk_resource (v : float) (disk : option Resource_DiskInfo) : Resource :=
  {| Resource_Name := "disk"; Resource_Scalar := v; Resource_Disk := disk |}.

Definition text_attribute (s : string) : Attribute :=
  {| Attribute_Type := TEXT; Attribute_Text := s; Attribute_Scalar := 0%float |}.

Definition offer_4_4096 : mesos_v1.Offer :=
  {| Offer_Id := "offer-1";
     Offer_Resources := [scalar_resource "cpus" 4; scalar_resource "mem" 4096];
     Offer_Attributes := [] |}.

Definition offer_4_100 : mesos_v1.Offer :=
  {| Offer_Id := "offer-2";
     Offer_Resources := [scalar_resource "cpus" 4; scalar_resource "mem" 100];
     Offer_Attributes := [] |}.

Definition offer_disk : mesos_v1.Offer :=
  {| Offer_Id := "offer-3";
     Offer_Resources := [scalar_resource "cpus" 4; scalar_resource "mem" 4096;
                         disk_resource 10 (Some (DiskInfo "offered"))];
     Offer_Attributes := [] |}.

Definition offer_gpu : mesos_v1.Offer :=
  {| Offer_Id := "offer-4";
     Offer_Resources := [scalar_resource "cpus" 4; scalar_resource "mem" 4096];
     Offer_Attributes := [text_attribute "GPU"] |}.

Definition task_cpu (name : string) (c : float) : TaskInfo :=
  {| TaskInfo_Name := name; TaskInfo_Resources := [scalar_resource "cpus" c] |}.

Definition task_cpu_mem (name : string) (c m : float) : TaskInfo :=
  {| TaskInfo_Name := name;
     TaskInfo_Resources := [scalar_resource "cpus" c; scalar_resource "mem" m] |}.

Definition task_disk (name : string) : TaskInfo :=
  {| TaskInfo_Name := name;
     TaskInfo_Resources := [scalar_resource "cpus" 1;
                            disk_resource 5 (Some (DiskInfo "demanded"))] |}.

Definition mux_filter : Filter :=
  {| Filter_Type := "STRATEGY"; Filter_Value := ["mux"] |}.

Definition bogus_filter : Filter :=
  {| Filter_Type := "bogus"; Filter_Value := ["x"] |}.

Definition text_filter (terms : list string) : Filter :=
  {| Filter_Type := "text"; Filter_Value := terms |}.

Definition scalar_filter (terms : list string) : Filter :=
  {| Filter_Type := "scalar"; Filter_Value := terms |}.

Definition strategy_without_value : Filter :=
  {| Filter_Type := "Strategy"; Filter_Value := [] |}.

(** A new manager after the batch [batch]. *)
Definition pool_of (batch : list mesos_v1.Offer) : DefaultResourceManager :=
  AddOffers NewDefaultResourceManager batch.

(** The manager with [batch] in the pool and the mux strategy registered for
    the task called [name]. *)
Definition mux_pool (batch : list mesos_v1.Offer) (name : string)
    : DefaultResourceManager :=
  {| offers := map AddOffers_entry batch; filterOn := ∅;
     strategy := {[ name := "mux" ]} |}.

(** A pool entry, field by field. *)
Definition pool_entry (offer : mesos_v1.Offer) (cpu mem : float)
    (disk : option Resource_DiskInfo) (accepted : bool) : MesosOfferResources :=
  {| Offer := offer; Cpu := cpu; Mem := mem; Disk := disk; Accepted := accepted |}.

(** The demands of a task without the ones named disk. *)
Definition without_disk (resources : list Resource) : list Resource :=
  List.filter (λ r, negb (String.eqb (Resource_Name r) "disk")) resources.

(** An offer with its attributes of type TEXT only. *)
Definition text_attributes_only (offer : mesos_v1.Offer) : mesos_v1.Offer :=
  {| Offer_Id := Offer_Id offer; Offer_Resources := Offer_Resources offer;
     Offer_Attributes :=
       List.filter (λ a, match Attribute_Type a with Value_TEXT => true | _ => false end)
         (Offer_Attributes offer) |}.

(** ** The scalar helper of the filter path

    [filterOnAttrScalar] is defined in the package and called from nowhere.
    [strconv.ParseFloat] is taken as it is used: a value and an error. *)

Section strconv.

Variable ParseFloat : string → float * option string.

Fixpoint filterOnAttrScalar (f : list string) (a : Attribute) : bool :=
  match f with
  | [] => false
  | term :: f' =>
    let '(termFloat64, err) := ParseFloat term in
    match err with
    | Some _ => filterOnAttrScalar f' a
    | None =>
      if (Attribute_Scalar a =? termFloat64)%float then true
      else filterOnAttrScalar f' a
    end
  end.

End strconv.

(** The line item of a raw offer that [AddOffers] ends up with for a name:
    the last one in the list. *)
Definition last_named (name : string) (resources : list Resource)
    : option Resource :=
  List.find (λ r, String.eqb (Resource_Name r) name) (rev resources).

(** * Properties *)

(** ** The offer pool: intake *)

Lemma AddOffers_fold (batch : list mesos_v1.Offer) (d : DefaultResourceManager) :
  fold_left (fun d offer => with_offers d (offers d ++ [AddOffers_entry offer])%list)
    batch d
  = with_offers d (offers d ++ map AddOffers_entry batch)%list.
Proof.
  revert d. induction batch as [|offer batch IH]; intros d; simpl.
  - rewrite app_nil_r. by destruct d.
  - rewrite IH. unfold with_offers; simpl. by rewrite <- app_assoc.
Qed.

Lemma AddOffers_offers (d : DefaultResourceManager) (batch : list mesos_v1.Offer) :
  offers (AddOffers d batch) = map AddOffers_entry batch.
Proof. unfold AddOffers. by rewrite AddOffers_fold. Qed.

Lemma AddOffers_registries (d : DefaultResourceManager) (batch : list mesos_v1.Offer) :
  filterOn (AddOffers d batch) = filterOn d ∧ strategy (AddOffers d batch) = strategy d.
Proof. unfold AddOffers. by rewrite AddOffers_fold. Qed.

(** C8: [AddOffers] drops the whole pool and rebuilds it from the batch alone,
    one entry per raw offer in the batch's order, so [HasResources] is true
    right afterwards exactly when the batch is not empty; an empty second
    batch leaves no resources, whatever the first batch held. *)
Theorem AddOffers_replaces_pool (d : DefaultResourceManager)
    (batch : list mesos_v1.Offer) :
  offers (AddOffers d batch) = map AddOffers_entry batch
  ∧ offers (AddOffers d batch) = offers (AddOffers NewDefaultResourceManager batch)
  ∧ (HasResources (AddOffers d batch) = true ↔ batch ≠ [])
  ∧ HasResources (AddOffers (AddOffers d batch) []) = false.
Proof.
  split; [|split; [|split]].
  - apply AddOffers_offers.
  - by rewrite !AddOffers_offers.
  - unfold HasResources. rewrite AddOffers_offers, length_map.
    destruct batch; simpl; split; done.
  - unfold HasResources. by rewrite !AddOffers_offers.
Qed.

(** ** The constraint registry *)

Lemma AddFilter_app (d : DefaultResourceManager) (t : TaskInfo)
    (pre rest : list Filter) :
  AddFilter d t (pre ++ rest)%list
  = match AddFilter d t pre with
    | Return (d', None) => AddFilter d' t rest
    | other => other
    end.
Proof.
  revert d. induction pre as [|f pre IH]; intros d; simpl; [done|].
  destruct (_ || _); [apply IH|].
  destruct (String.eqb _ "strategy"); [|done].
  destruct (Filter_Value f); [done | apply IH].
Qed.

Lemma AddFilter_offers (t : TaskInfo) (filters : list Filter)
    (d d' : DefaultResourceManager) (e : option string) :
  AddFilter d t filters = Return (d', e) → offers d' = offers d.
Proof.
  revert d. induction filters as [|f filters IH]; intros d; simpl.
  - by intros [= <- _].
  - destruct (_ || _).
    { intros H. apply IH in H. by destruct (filterOn d !! _). }
    destruct (String.eqb _ "strategy"); [|by intros [= <- _]].
    destruct (Filter_Value f); [done|]. intros H. by apply IH in H.
Qed.

Lemma unrecognised_kind (f : Filter) :
  recognised_kind f = false ↔ attribute_kind f = false ∧ strategy_kind f = false.
Proof. unfold recognised_kind. apply orb_false_iff. Qed.

(** C9, as the code has it: when the entries [pre] before the first entry of
    an unrecognised kind are applied without a panic, [AddFilter] returns the
    invalid-filter error that names that kind as it was passed, and the
    manager it leaves is the one [AddFilter] leaves for [pre] alone: the
    entries before are applied, the invalid entry and the ones after it are
    not. *)
Theorem AddFilter_invalid_kind (d d_pre : DefaultResourceManager) (t : TaskInfo)
    (pre post : list Filter) (bad : Filter) :
  AddFilter d t pre = Return (d_pre, None) →
  recognised_kind bad = false →
  AddFilter d t (pre ++ bad :: post)%list
  = Return (d_pre, Some ("Invalid filter passed in: " ++ Filter_Type bad
       ++ ". Allowed filters are SCALAR, TEXT, SET, RANGES, and STRATEGY.")).
Proof.
  intros Hpre [Ha Hs]%unrecognised_kind.
  rewrite AddFilter_app, Hpre. simpl.
  unfold attribute_kind in Ha. unfold strategy_kind in Hs.
  cbv zeta in Ha. by rewrite Ha, Hs.
Qed.

Lemma strategy_kind_lower (f : Filter) :
  strategy_kind f = true → strings.ToLower (Filter_Type f) = "strategy".
Proof. unfold strategy_kind. apply String.eqb_eq. Qed.

Lemma AddFilter_total (t : TaskInfo) (filters : list Filter)
    (d : DefaultResourceManager) :
  Forall (λ f, strategy_kind f = true → Filter_Value f ≠ []) filters →
  ∃ d' e, AddFilter d t filters = Return (d', e).
Proof.
  intros Hall. revert d.
  induction Hall as [|f filters Hf _ IH]; intros d; simpl; [by eauto|].
  destruct (_ || _); [apply IH|].
  destruct (String.eqb _ "strategy") eqn:Hs; [|by eauto].
  destruct (Filter_Value f); [by destruct Hf | apply IH].
Qed.

(** C10, as the code has it: a strategy entry with no value makes [AddFilter]
    panic on [f.Value[0]] whenever the loop gets to it, that is when the
    entries before it are applied without an error; and when every strategy
    entry carries a value, [AddFilter] returns. *)
Theorem AddFilter_strategy_without_value :
  (∀ (d d_pre : DefaultResourceManager) (t : TaskInfo)
     (pre post : list Filter) (f : Filter),
     AddFilter d t pre = Return (d_pre, None) →
     strategy_kind f = true →
     Filter_Value f = [] →
     AddFilter d t (pre ++ f :: post)%list = Panic index_out_of_range)
  ∧ (∀ (d : DefaultResourceManager) (t : TaskInfo) (filters : list Filter),
       Forall (λ f, strategy_kind f = true → Filter_Value f ≠ []) filters →
       ∃ d' e, AddFilter d t filters = Return (d', e)).
Proof.
  split.
  - intros d d_pre t pre post f Hpre Hs%strategy_kind_lower Hv.
    rewrite AddFilter_app, Hpre. simpl. by rewrite Hs, Hv.
  - intros d t filters. apply AddFilter_total.
Qed.

(** ** Filter evaluation *)

Lemma filterOnAttrText_true (f : list string) (a : Attribute) :
  filterOnAttrText f a = true
  ↔ ∃ term rest, f = term :: rest
      ∧ strings.ToLower term = strings.ToLower (Attribute_Text a).
Proof.
  destruct f as [|term rest]; simpl.
  - split; [done | by intros (? & ? & ? & _)].
  - destruct (String.eqb_spec (strings.ToLower term)
                (strings.ToLower (Attribute_Text a))) as [Heq|Hne].
    + split; [by eauto | done].
    + split; [done | by intros (? & ? & [= <- _] & ?)].
Qed.

Lemma filter_attrs_true (value : list string) (attrs : list Attribute) :
  filter_attrs value attrs = true
  ↔ ∃ a, a ∈ attrs ∧ Attribute_Type a = TEXT ∧ filterOnAttrText value a = true.
Proof.
  induction attrs as [|attr attrs IH]; simpl.
  - split; [done | by intros (? & ?%elem_of_nil & _)].
  - assert (Hskip : Attribute_Type attr ≠ TEXT →
      (filter_attrs value attrs = true
       ↔ ∃ a, a ∈ attr :: attrs ∧ Attribute_Type a = TEXT
              ∧ filterOnAttrText value a = true)).
    { intros Hty. rewrite IH. split.
      - intros (a & Hin & Ha). exists a. split; [by right | done].
      - intros (a & Hin & Hta & Ha). apply elem_of_cons in Hin as [->|Hin];
          [done | by eauto]. }
    destruct (Attribute_Type attr) eqn:Hty; try (by apply Hskip).
    destruct (filterOnAttrText value attr) eqn:Htxt.
    + split; [|done]. intros _. exists attr. split; [by left | done].
    + rewrite IH. split.
      * intros (a & Hin & Ha). exists a. split; [by right | done].
      * intros (a & Hin & Hta & Ha). apply elem_of_cons in Hin as [->|Hin];
          [congruence | by eauto].
Qed.

Lemma filter_true (fs : list Filter) (offer : mesos_v1.Offer) :
  filter fs offer = true
  ↔ ∃ f, f ∈ fs ∧ filter_attrs (Filter_Value f) (Offer_Attributes offer) = true.
Proof.
  induction fs as [|f fs IH]; simpl.
  - split; [done | by intros (? & ?%elem_of_nil & _)].
  - destruct (filter_attrs (Filter_Value f) (Offer_Attributes offer)) eqn:Hf.
    + split; [|done]. intros _. exists f. split; [by left | done].
    + rewrite IH. split.
      * intros (g & Hin & Hg). exists g. split; [by right | done].
      * intros (g & Hin & Hg). apply elem_of_cons in Hin as [->|Hin];
          [congruence | by eauto].
Qed.

Lemma all_bytes_complete (c : ascii) : In c all_bytes.
Proof.
  unfold all_bytes. rewrite <- (ascii_nat_embedding c).
  apply in_map, in_seq. pose proof (nat_ascii_bounded c). lia.
Qed.

Lemma lower_same_letter (c1 c2 : ascii) :
  strings.lower c1 = strings.lower c2 ↔ same_letter c1 c2 = true.
Proof.
  assert (Hall : forallb (λ a, forallb (λ b,
            Bool.eqb (Ascii.eqb (strings.lower a) (strings.lower b))
                     (same_letter a b)) all_bytes) all_bytes = true)
    by (vm_compute; reflexivity).
  rewrite forallb_forall in Hall.
  specialize (Hall c1 (all_bytes_complete c1)).
  rewrite forallb_forall in Hall.
  specialize (Hall c2 (all_bytes_complete c2)).
  apply Bool.eqb_prop in Hall. rewrite <- Hall. symmetry. apply Ascii.eqb_eq.
Qed.

Lemma lowerASCII_equal (s : string) :
  ∀ t, strings.lowerASCII s = strings.lowerASCII t ↔ equal_up_to_case s t = true.
Proof.
  induction s as [|c s IH]; intros [|c' t]; simpl; try done.
  rewrite andb_true_iff, <- lower_same_letter, <- IH. split.
  - by intros [= -> ->].
  - by intros [-> ->].
Qed.

Lemma ToLower_ASCII (s : string) :
  strings.isASCII s = true → strings.ToLower s = strings.lowerASCII s.
Proof. intros Hs. unfold strings.ToLower. by rewrite Hs. Qed.

(** C4: evaluating one filter against an offer yields true exactly when some
    text attribute of the offer equals, after [strings.ToLower] on both, the
    first term of the filter's values; the terms after the first play no
    part, and a first term that differs makes the attribute check false at
    once.  A list of filters passes when one of them does.  Between a term
    and a text of ASCII bytes the comparison is the one that takes a capital
    for its small letter and nothing else; outside ASCII it is what the
    library's Unicode lower-casing makes of the two.  (The filter's kind is
    not consulted, so this holds for text filters in particular.) *)
Theorem filter_first_term_only :
  (∀ (f : Filter) (offer : mesos_v1.Offer),
     filter [f] offer = true
     ↔ ∃ a term rest,
         a ∈ Offer_Attributes offer ∧ Attribute_Type a = TEXT
         ∧ Filter_Value f = term :: rest
         ∧ strings.ToLower term = strings.ToLower (Attribute_Text a))
  ∧ (∀ (term : string) (rest : list string) (a : Attribute),
       filterOnAttrText (term :: rest) a = filterOnAttrText [term] a)
  ∧ (∀ (term : string) (rest : list string) (a : Attribute),
       strings.ToLower term ≠ strings.ToLower (Attribute_Text a) →
       filterOnAttrText (term :: rest) a = false)
  ∧ (∀ (fs : list Filter) (offer : mesos_v1.Offer),
       filter fs offer = true ↔ ∃ f, f ∈ fs ∧ filter [f] offer = true)
  ∧ (∀ (term : string) (rest : list string) (a : Attribute),
       strings.isASCII term = true →
       strings.isASCII (Attribute_Text a) = true →
       (filterOnAttrText (term :: rest) a = true
        ↔ equal_up_to_case term (Attribute_Text a) = true)).
Proof.
  split; [|split; [|split; [|split]]].
  - intros f offer. rewrite filter_true. split.
    + intros (g & ->%list_elem_of_singleton & Hg).
      apply filter_attrs_true in Hg as (a & Hin & Hty & Ha).
      apply filterOnAttrText_true in Ha as (term & rest & Hv & Heq).
      by exists a, term, rest.
    + intros (a & term & rest & Hin & Hty & Hv & Heq).
      exists f. split; [by apply list_elem_of_singleton|].
      apply filter_attrs_true. exists a. repeat split; [done..|].
      apply filterOnAttrText_true. by exists term, rest.
  - done.
  - intros term rest a Hne. simpl.
    by destruct (String.eqb_spec (strings.ToLower term)
                   (strings.ToLower (Attribute_Text a))).
  - intros fs offer. rewrite filter_true. split.
    + intros (f & Hin & Hf). exists f. split; [done|].
      apply filter_true. exists f. split; [by apply list_elem_of_singleton | done].
    + intros (f & Hin & Hf). exists f. split; [done|].
      by apply filter_true in Hf as (g & ->%list_elem_of_singleton & Hg).
  - intros term rest a Hterm Htext. rewrite <- lowerASCII_equal.
    rewrite <- (ToLower_ASCII term Hterm), <- (ToLower_ASCII _ Htext). simpl.
    by destruct (String.eqb_spec (strings.ToLower term)
                   (strings.ToLower (Attribute_Text a))).
Qed.

(** ** Removal from the pool *)

Lemma insert_at_length {A : Type} (front back : list A) (x y : A) :
  <[length front := y]> (front ++ x :: back)%list = (front ++ y :: back)%list.
Proof.
  replace (length front) with (length front + 0) at 1 by lia.
  by rewrite insert_app_r.
Qed.

Lemma popOffer_last (d : DefaultResourceManager)
    (front : list MesosOfferResources) (cur : MesosOfferResources) :
  offers d = (front ++ [cur])%list →
  popOffer d (length front) = Return (with_offers d front).
Proof.
  intros Hl. unfold popOffer. rewrite Hl, length_app. simpl.
  replace (length front + 1 - 1) with (length front) by lia.
  rewrite list_lookup_middle by done.
  rewrite (list_insert_id (front ++ [cur])%list (length front) cur)
    by (by apply list_lookup_middle).
  rewrite (list_insert_id (front ++ [cur])%list (length front) cur)
    by (by apply list_lookup_middle).
  by rewrite take_app_length.
Qed.

Lemma popOffer_middle (d : DefaultResourceManager)
    (front back : list MesosOfferResources) (cur last : MesosOfferResources) :
  offers d = (front ++ cur :: back ++ [last])%list →
  popOffer d (length front) = Return (with_offers d (front ++ last :: back)%list).
Proof.
  intros Hl. unfold popOffer. rewrite Hl.
  assert (Hn : length (front ++ cur :: back ++ [last])%list - 1
               = length (front ++ cur :: back)%list).
  { rewrite !length_app. simpl. rewrite length_app. simpl. lia. }
  rewrite Hn.
  assert (Hlast : (front ++ cur :: back ++ [last])%list
                    !! length (front ++ cur :: back)%list = Some last).
  { replace (front ++ cur :: back ++ [last])%list
      with ((front ++ cur :: back) ++ [last])%list by (by rewrite <- app_assoc).
    by apply list_lookup_middle. }
  rewrite Hlast, (list_lookup_middle front (back ++ [last]) cur) by done.
  assert (Hstore1 : <[length (front ++ cur :: back)%list := cur]>
                      (front ++ cur :: back ++ [last])%list
                    = (front ++ cur :: back ++ [cur])%list).
  { replace (front ++ cur :: back ++ [last])%list
      with ((front ++ cur :: back) ++ [last])%list by (by rewrite <- app_assoc).
    rewrite insert_at_length. by rewrite <- app_assoc. }
  rewrite Hstore1, insert_at_length.
  replace (front ++ last :: back ++ [cur])%list
    with ((front ++ last :: back) ++ [cur])%list by (by rewrite <- app_assoc).
  rewrite take_app_length'; [done|].
  rewrite !length_app. simpl. lia.
Qed.

Lemma popOffer_in_range (d : DefaultResourceManager) (i : nat) :
  i < length (offers d) →
  ∃ d', popOffer d i = Return d'
        ∧ offers d' ≡ₚ delete i (offers d)
        ∧ length (offers d') + 1 = length (offers d)
        ∧ filterOn d' = filterOn d ∧ strategy d' = strategy d.
Proof.
  intros Hi. apply lookup_lt_is_Some_2 in Hi as [cur Hcur].
  apply list_elem_of_split_length in Hcur as (front & back & Hl & ->).
  destruct back as [|b back _] using rev_ind.
  - exists (with_offers d front). rewrite (popOffer_last d front cur Hl).
    rewrite Hl, delete_middle, length_app. simpl.
    rewrite app_nil_r. repeat split; done || lia.
  - exists (with_offers d (front ++ b :: back)%list).
    rewrite (popOffer_middle d front back cur b Hl).
    rewrite Hl, delete_middle, !length_app. simpl. rewrite length_app. simpl.
    repeat split; [|rewrite length_app; simpl; lia].
    apply Permutation_app_head, (Permutation_app_comm [b] back).
Qed.

(** ** The scan of [Assign] *)

Lemma first_fit_split {A : Type} (P : A → bool) (l : list A) :
  Forall (λ x, P x = false) l
  ∨ ∃ pre x post, l = (pre ++ x :: post)%list
                  ∧ Forall (λ x, P x = false) pre ∧ P x = true.
Proof.
  induction l as [|a l [IH|(pre & x & post & -> & Hpre & Hx)]].
  - by left.
  - destruct (P a) eqn:Ha.
    + right. by exists [], a, l.
    + left. by constructor.
  - destruct (P a) eqn:Ha.
    + right. by exists [], a, (pre ++ x :: post)%list.
    + right. exists (a :: pre), x, post. repeat split; [|done]. by constructor.
Qed.

Lemma Assign_from_none (t : TaskInfo) (range : list MesosOfferResources) :
  ∀ (d : DefaultResourceManager) (front : list MesosOfferResources),
    offers d = (front ++ range)%list →
    Forall (λ o, fits d t o = false) range →
    Assign_from d t (length front) range
    = Return (with_offers d (front ++ map (scanned d t) range)%list,
              inr (not_found t)).
Proof.
  induction range as [|o range IH]; intros d front Hl Hnone; simpl.
  - rewrite app_nil_r in *. destruct d; simpl in *. by subst.
  - apply Forall_cons in Hnone as [Ho Hnone].
    unfold fits in Ho. unfold scanned at 1.
    fold (admits d t o). destruct (admits d t o); simpl in *.
    + destruct (Assign_resources (TaskInfo_Resources t) o) as [o' ok].
      simpl in Ho. subst ok. simpl.
      specialize (IH (with_offers d (<[length front := o']> (offers d)))
                     (front ++ [o'])%list).
      rewrite length_app, Nat.add_1_r in IH. simpl in IH.
      rewrite IH; [by rewrite <- app_assoc | | done].
      by rewrite Hl, insert_at_length, <- app_assoc.
    + specialize (IH d (front ++ [o])%list).
      rewrite length_app, Nat.add_1_r in IH.
      rewrite IH; [by rewrite <- app_assoc | by rewrite <- app_assoc | done].
Qed.

Lemma Assign_from_first_fit (t : TaskInfo)
    (pre post : list MesosOfferResources) (o : MesosOfferResources) :
  ∀ (d : DefaultResourceManager) (front : list MesosOfferResources),
    offers d = (front ++ pre ++ o :: post)%list →
    Forall (λ o, fits d t o = false) pre →
    fits d t o = true →
    let o' := set_Accepted (fst (Assign_resources (TaskInfo_Resources t) o)) in
    Assign_from d t (length front) (pre ++ o :: post)%list
    = (d' ← Assign_retain
              (with_offers d (front ++ map (scanned d t) pre ++ o' :: post)%list)
              t (length front + length pre) o';
       Return (d', inl (Offer o'))).
Proof.
  induction pre as [|p pre IH]; intros d front Hl Hnone Hfit; simpl.
  - unfold fits in Hfit. apply andb_true_iff in Hfit as [Hadm Hok].
    fold (admits d t o). rewrite Hadm. simpl.
    destruct (Assign_resources (TaskInfo_Resources t) o) as [o1 ok].
    simpl in *. subst ok. simpl.
    rewrite Nat.add_0_r, Hl. simpl.
    by rewrite !insert_at_length.
  - apply Forall_cons in Hnone as [Hp Hnone].
    unfold fits in Hp. unfold scanned at 1.
    fold (admits d t p). destruct (admits d t p); simpl in *.
    + destruct (Assign_resources (TaskInfo_Resources t) p) as [p' ok].
      simpl in Hp. subst ok. simpl.
      specialize (IH (with_offers d (<[length front := p']> (offers d)))
                     (front ++ [p'])%list).
      rewrite length_app, Nat.add_1_r in IH. simpl in IH.
      rewrite IH; [|by rewrite Hl, insert_at_length, <- app_assoc|done..].
      rewrite <- app_assoc. simpl.
      by replace (S (length front + length pre))
        with (length front + S (length pre)) by lia.
    + specialize (IH d (front ++ [p])%list).
      rewrite length_app, Nat.add_1_r in IH. simpl in IH.
      rewrite IH; [|by rewrite <- app_assoc|done..].
      rewrite <- app_assoc. simpl.
      by replace (S (length front + length pre))
        with (length front + S (length pre)) by lia.
Qed.

Lemma Assign_cases (d : DefaultResourceManager) (t : TaskInfo) :
  (Forall (λ o, fits d t o = false) (offers d)
   ∧ Assign d t = Return (with_offers d (map (scanned d t) (offers d)),
                          inr (not_found t)))
  ∨ (∃ pre o post,
       offers d = (pre ++ o :: post)%list
       ∧ Forall (λ o, fits d t o = false) pre
       ∧ fits d t o = true
       ∧ let o' := set_Accepted (fst (Assign_resources (TaskInfo_Resources t) o)) in
         Assign d t
         = (d' ← Assign_retain
                   (with_offers d (map (scanned d t) pre ++ o' :: post)%list)
                   t (length pre) o';
            Return (d', inl (Offer o')))).
Proof.
  destruct (first_fit_split (fits d t) (offers d))
    as [Hnone|(pre & o & post & Hl & Hpre & Ho)].
  - left. split; [done|]. by apply (Assign_from_none t (offers d) d []).
  - right. exists pre, o, post. repeat split; [done..|].
    unfold Assign. rewrite Hl.
    by apply (Assign_from_first_fit t pre post o d []).
Qed.

(** ** Allocation of one entry *)

Lemma Assign_resources_Offer (resources : list Resource) :
  ∀ o, Offer (fst (Assign_resources resources o)) = Offer o
       ∧ Accepted (fst (Assign_resources resources o)) = Accepted o.
Proof.
  induction resources as [|r resources IH]; intros o; simpl; [done|].
  destruct (String.eqb _ "cpus").
  { unfold allocateCpuResource. destruct (0 <=? _)%float; [|done].
    by destruct (IH {| Offer := Offer o; Cpu := (Cpu o - Resource_Scalar r)%float;
                       Mem := Mem o; Disk := Disk o; Accepted := Accepted o |}). }
  destruct (String.eqb _ "mem").
  { unfold allocateMemResource. destruct (0 <=? _)%float; [|done].
    by destruct (IH {| Offer := Offer o; Cpu := Cpu o;
                       Mem := (Mem o - Resource_Scalar r)%float;
                       Disk := Disk o; Accepted := Accepted o |}). }
  destruct (String.eqb _ "disk"); [|apply IH].
  unfold allocateDiskResource. destruct (Resource_Disk r) as [disk|]; [|apply IH].
  by destruct (IH {| Offer := Offer o; Cpu := Cpu o; Mem := Mem o;
                     Disk := Some disk; Accepted := Accepted o |}).
Qed.

Lemma Assign_resources_nonneg (resources : list Resource) :
  ∀ o, nonneg o → nonneg (fst (Assign_resources resources o)).
Proof.
  induction resources as [|r resources IH]; intros o [Hc Hm]; simpl; [done|].
  destruct (String.eqb _ "cpus").
  { unfold allocateCpuResource.
    destruct (0 <=? Cpu o - Resource_Scalar r)%float eqn:Hfit; [|done].
    by apply IH. }
  destruct (String.eqb _ "mem").
  { unfold allocateMemResource.
    destruct (0 <=? Mem o - Resource_Scalar r)%float eqn:Hfit; [|done].
    by apply IH. }
  destruct (String.eqb _ "disk"); [|by apply IH].
  unfold allocateDiskResource. destruct (Resource_Disk r); by apply IH.
Qed.

Lemma scanned_nonneg (d : DefaultResourceManager) (t : TaskInfo)
    (o : MesosOfferResources) :
  nonneg o → nonneg (scanned d t o).
Proof.
  intros Ho. unfold scanned. destruct (admits d t o); [|done].
  by apply Assign_resources_nonneg.
Qed.

Lemma AddOffers_entry_nonneg (offer : mesos_v1.Offer) :
  raw_nonneg offer → nonneg (AddOffers_entry offer).
Proof.
  unfold raw_nonneg, AddOffers_entry.
  assert (Hzero : nonneg {| Offer := offer; Cpu := 0%float; Mem := 0%float;
                            Disk := None; Accepted := false |}) by done.
  revert Hzero. generalize {| Offer := offer; Cpu := 0%float; Mem := 0%float;
                              Disk := None; Accepted := false |}.
  induction (Offer_Resources offer) as [|r rs IH]; intros o Ho Hraw; simpl; [done|].
  apply Forall_cons in Hraw as [Hr Hraw]. apply IH; [|done].
  unfold AddOffers_resource. destruct Ho as [Hc Hm].
  destruct (String.eqb_spec (Resource_Name r) "cpus") as [Hn|_].
  { split; [by apply Hr; left | done]. }
  destruct (String.eqb_spec (Resource_Name r) "mem") as [Hn|_].
  { split; [done | by apply Hr; right]. }
  by destruct (String.eqb _ "disk").
Qed.

(** ** Retention *)

Lemma Assign_retain_non_mux (d : DefaultResourceManager) (t : TaskInfo)
    (i : nat) (o : MesosOfferResources) :
  strategy d !! TaskInfo_Name t = None →
  Assign_retain d t i o = popOffer d i.
Proof. intros Hs. unfold Assign_retain. by rewrite Hs. Qed.

Lemma Assign_retain_mux (d : DefaultResourceManager) (t : TaskInfo)
    (i : nat) (o : MesosOfferResources) (s : string) :
  strategy d !! TaskInfo_Name t = Some s →
  strings.EqualFold s "mux" = true →
  Assign_retain d t i o
  = if (Mem o =? 0)%float || (Cpu o =? 0)%float then popOffer d i else Return d.
Proof. intros Hs Hmux. unfold Assign_retain. by rewrite Hs, Hmux. Qed.

Lemma Assign_retain_in_range (d : DefaultResourceManager) (t : TaskInfo)
    (i : nat) (o : MesosOfferResources) :
  i < length (offers d) →
  ∃ d', Assign_retain d t i o = Return d'
        ∧ (d' = d ∨ offers d' ≡ₚ delete i (offers d))
        ∧ filterOn d' = filterOn d ∧ strategy d' = strategy d.
Proof.
  intros Hi.
  destruct (popOffer_in_range d i Hi) as (d' & Hpop & Hperm & _ & Hf & Hs).
  unfold Assign_retain.
  destruct (negb _); [by exists d'; eauto|].
  destruct (_ || _); [by exists d'; eauto|].
  exists d. eauto.
Qed.

(** [Assign] never panics: the index it removes is the one it matched. *)
Lemma Assign_total (d : DefaultResourceManager) (t : TaskInfo) :
  ∃ d' r, Assign d t = Return (d', r)
          ∧ filterOn d' = filterOn d ∧ strategy d' = strategy d.
Proof.
  destruct (Assign_cases d t) as [[_ ->]|(pre & o & post & Hl & _ & _ & ->)].
  - by eexists _, _.
  - edestruct (Assign_retain_in_range
                 (with_offers d (map (scanned d t) pre
                    ++ set_Accepted (fst (Assign_resources (TaskInfo_Resources t) o))
                    :: post)%list) t (length pre)) as (d' & -> & _ & Hf & Hs).
    { simpl. rewrite length_app, length_map. simpl. lia. }
    by eexists _, _.
Qed.

(** ** Comparisons of float64 values *)

Lemma positive_not_zero (x : float) :
  (0 <? x)%float = true → (x =? 0)%float = false.
Proof.
  rewrite FloatAxioms.ltb_spec, FloatAxioms.eqb_spec.
  change (Prim2SF 0) with (S754_zero false).
  by destruct (Prim2SF x) as [[]|[]| |[] m e].
Qed.

(** ** The scalar invariant *)

Lemma Assign_pool_nonneg (d d' : DefaultResourceManager) (t : TaskInfo)
    (r : mesos_v1.Offer + string) :
  pool_nonneg d → Assign d t = Return (d', r) → pool_nonneg d'.
Proof.
  unfold pool_nonneg. intros Hd.
  destruct (Assign_cases d t) as [[_ ->]|(pre & o & post & Hl & _ & _ & ->)].
  - intros [= <- _]. simpl. apply Forall_fmap.
    eapply Forall_impl; [done|]. intros o. apply scanned_nonneg.
  - rewrite Hl in Hd. apply Forall_app in Hd as [Hpre Hpost].
    apply Forall_cons in Hpost as [Ho Hpost].
    set (o' := set_Accepted (fst (Assign_resources (TaskInfo_Resources t) o))).
    set (d1 := with_offers d (map (scanned d t) pre ++ o' :: post)%list).
    assert (Hd1 : Forall nonneg (offers d1)).
    { simpl. apply Forall_app. split.
      - apply Forall_fmap. eapply Forall_impl; [done|].
        intros p. apply scanned_nonneg.
      - apply Forall_cons. split; [|done].
        by apply (Assign_resources_nonneg (TaskInfo_Resources t) o). }
    destruct (Assign_retain_in_range d1 t (length pre) o')
      as (d2 & -> & Hcase & _).
    { simpl. rewrite length_app, length_map. simpl. lia. }
    simpl. intros [= <- _].
    destruct Hcase as [->|Hperm]; [done|].
    rewrite Hperm. by apply Forall_delete.
Qed.

Lemma step_pool_nonneg (d d' : DefaultResourceManager) :
  pool_nonneg d → step d d' → pool_nonneg d'.
Proof.
  intros Hd Hstep. destruct Hstep as [d batch Hraw|d t d' r Hassign
    |d t filters d' e Hadd|d t|d l _].
  - unfold pool_nonneg. rewrite AddOffers_offers. apply Forall_fmap.
    eapply Forall_impl; [done|]. intros offer. apply AddOffers_entry_nonneg.
  - by eapply Assign_pool_nonneg.
  - unfold pool_nonneg. by rewrite (AddFilter_offers _ _ _ _ _ Hadd).
  - done.
  - done.
Qed.

(** C2: a call of [AddOffers] (on raw offers whose [cpus] and [mem] values
    are not negative), [Assign], [AddFilter], [ClearFilters] or [Offers] that
    starts from a pool where every entry has [cpu >= 0] and [mem >= 0] leaves
    such a pool; so every reachable pool is one; and [allocateCpuResource]
    and [allocateMemResource] leave the entry as it is and report false when
    the difference would not be [>= 0]. *)
Theorem scalar_invariant_preserved :
  (∀ d d' : DefaultResourceManager, pool_nonneg d → step d d' → pool_nonneg d')
  ∧ (∀ d : DefaultResourceManager, reachable d → pool_nonneg d)
  ∧ (∀ (cpu : float) (o : MesosOfferResources),
       (0 <=? Cpu o - cpu)%float = false → allocateCpuResource cpu o = (o, false))
  ∧ (∀ (mem : float) (o : MesosOfferResources),
       (0 <=? Mem o - mem)%float = false → allocateMemResource mem o = (o, false)).
Proof.
  split; [|split; [|split]].
  - apply step_pool_nonneg.
  - intros d Hd. induction Hd as [|d d' _ IH Hstep].
    + constructor.
    + by eapply step_pool_nonneg.
  - intros cpu o Hneg. unfold allocateCpuResource. by rewrite Hneg.
  - intros mem o Hneg. unfold allocateMemResource. by rewrite Hneg.
Qed.

(** ** What a failed fit leaves behind *)

(** C1, at an input where it fails: the pool holds one offer with cpu 4 and
    mem 100, the task asks for cpus 1 and then mem 200.  [Assign] returns the
    not-found error, yet the offer it skipped stays in the pool with cpu 3,
    not accepted, and [Offers] still lists it. *)
Theorem Assign_skipped_offer_keeps_debit :
  offers (pool_of [offer_4_100])
  = [{| Offer := offer_4_100; Cpu := 4; Mem := 100; Disk := None;
        Accepted := false |}]
  ∧ Assign (pool_of [offer_4_100]) (task_cpu_mem "task" 1 200)
    = Return ({| offers := [{| Offer := offer_4_100; Cpu := 3; Mem := 100;
                               Disk := None; Accepted := false |}];
                 filterOn := ∅; strategy := ∅ |},
              inr "Cannot find a suitable offer for task task")
  ∧ Offers {| offers := [{| Offer := offer_4_100; Cpu := 3; Mem := 100;
                            Disk := None; Accepted := false |}];
              filterOn := ∅; strategy := ∅ |}
    = [offer_4_100].
Proof. by vm_compute. Qed.

(** ** Retention *)

Lemma first_fit_success (d d' : DefaultResourceManager) (t : TaskInfo)
    (raw : mesos_v1.Offer) :
  Assign d t = Return (d', inl raw) →
  ∃ pre o post,
    offers d = (pre ++ o :: post)%list
    ∧ Forall (λ o, fits d t o = false) pre
    ∧ fits d t o = true
    ∧ raw = Offer o
    ∧ let o' := set_Accepted (fst (Assign_resources (TaskInfo_Resources t) o)) in
      Assign_retain (with_offers d (map (scanned d t) pre ++ o' :: post)%list)
        t (length pre) o' = Return d'.
Proof.
  destruct (Assign_cases d t) as [[_ ->]|(pre & o & post & Hl & Hpre & Ho & ->)];
    [done|].
  intros Hret. exists pre, o, post. repeat split; [done..| |].
  - destruct (Assign_retain _ _ _ _); simpl in Hret; [|done].
    injection Hret as _ <-. simpl.
    by destruct (Assign_resources_Offer (TaskInfo_Resources t) o).
  - simpl. destruct (Assign_retain _ _ _ _); simpl in Hret; [|done].
    by injection Hret as -> _.
Qed.

(** C6: when no strategy is registered for the task, a successful [Assign]
    returns the raw offer of the first entry that fits and leaves a pool with
    that entry gone, whatever capacity the entry had left: the pool is one
    shorter and holds the entries the scan passed over and the ones it never
    reached; and whenever some entry fits, [Assign] does return, with the
    first such entry removed.  With one offer of cpu 4 and mem 4096 and two tasks asking for
    cpus 1, the first [Assign] returns the offer and empties the pool, and
    the second fails with the not-found error that names the task. *)
Theorem Assign_non_mux_single_use :
  (∀ (d d' : DefaultResourceManager) (t : TaskInfo) (raw : mesos_v1.Offer),
     strategy d !! TaskInfo_Name t = None →
     Assign d t = Return (d', inl raw) →
     ∃ pre o post,
       offers d = (pre ++ o :: post)%list
       ∧ Forall (λ o, fits d t o = false) pre
       ∧ fits d t o = true
       ∧ raw = Offer o
       ∧ offers d' ≡ₚ (map (scanned d t) pre ++ post)%list
       ∧ length (offers d') + 1 = length (offers d))
  ∧ (∀ (d : DefaultResourceManager) (t : TaskInfo)
       (pre post : list MesosOfferResources) (o : MesosOfferResources),
       strategy d !! TaskInfo_Name t = None →
       offers d = (pre ++ o :: post)%list →
       Forall (λ o, fits d t o = false) pre →
       fits d t o = true →
       ∃ d', Assign d t = Return (d', inl (Offer o))
             ∧ offers d' ≡ₚ (map (scanned d t) pre ++ post)%list)
  ∧ offers (pool_of [offer_4_4096])
    = [{| Offer := offer_4_4096; Cpu := 4; Mem := 4096; Disk := None;
          Accepted := false |}]
  ∧ Assign (pool_of [offer_4_4096]) (task_cpu "task-1" 1)
    = Return (NewDefaultResourceManager, inl offer_4_4096)
  ∧ HasResources NewDefaultResourceManager = false
  ∧ Assign NewDefaultResourceManager (task_cpu "task-2" 1)
    = Return (NewDefaultResourceManager,
              inr "Cannot find a suitable offer for task task-2").
Proof.
  split; [|split; [|by vm_compute]]; last first.
  { intros d t pre post o Hs Hl Hpre Ho.
    pose proof (Assign_from_first_fit t pre post o d [] Hl Hpre Ho) as Hscan.
    simpl in Hscan. unfold Assign. rewrite Hl, Hscan.
    rewrite Assign_retain_non_mux by done.
    rewrite <- (length_map (scanned d t) pre).
    edestruct popOffer_in_range as (d2 & -> & Hperm & _).
    { simpl. rewrite length_app, !length_map. simpl. lia. }
    exists d2. simpl. split.
    - by destruct (Assign_resources_Offer (TaskInfo_Resources t) o) as [-> _].
    - rewrite Hperm. simpl. by rewrite delete_middle. }
  intros d d' t raw Hs Hassign.
  apply first_fit_success in Hassign
    as (pre & o & post & Hl & Hpre & Ho & Hraw & Hretain).
  exists pre, o, post. repeat split; [done..| |].
  - cbv zeta in Hretain. rewrite Assign_retain_non_mux in Hretain by done.
    rewrite <- (length_map (scanned d t) pre) in Hretain.
    edestruct popOffer_in_range as (d2 & Hpop & Hperm & _);
      [|rewrite Hpop in Hretain].
    { simpl. rewrite length_app, !length_map. simpl. lia. }
    injection Hretain as <-. rewrite Hperm. simpl.
    by rewrite delete_middle.
  - cbv zeta in Hretain. rewrite Assign_retain_non_mux in Hretain by done.
    edestruct popOffer_in_range as (d2 & Hpop & _ & Hlen & _);
      [|rewrite Hpop in Hretain].
    { simpl. rewrite length_app, !length_map. simpl. lia. }
    injection Hretain as <-. rewrite Hlen, Hl. simpl.
    rewrite !length_app, length_map. done.
Qed.

Lemma first_fit_again (d : DefaultResourceManager) (t : TaskInfo)
    (pre post : list MesosOfferResources) (o : MesosOfferResources) :
  offers d = (pre ++ o :: post)%list →
  Forall (λ p, fits d t p = false) pre →
  fits d t o = true →
  ∃ d', Assign d t = Return (d', inl (Offer o)).
Proof.
  intros Hl Hpre Ho. unfold Assign. rewrite Hl.
  pose proof (Assign_from_first_fit t pre post o d [] Hl Hpre Ho) as Hscan.
  simpl in Hscan. rewrite Hscan. clear Hscan.
  edestruct Assign_retain_in_range as (d' & -> & _);
    [|exists d'; simpl;
      by destruct (Assign_resources_Offer (TaskInfo_Resources t) o) as [-> _]].
  simpl. rewrite length_app, length_map. simpl. lia.
Qed.

Lemma Assign_resources_residual (resources : list Resource) :
  ∀ o : MesosOfferResources,
    snd (Assign_resources resources o) = true →
    Cpu (fst (Assign_resources resources o)) = debit (Cpu o) (demands "cpus" resources)
    ∧ Mem (fst (Assign_resources resources o)) = debit (Mem o) (demands "mem" resources).
Proof.
  unfold debit, demands.
  induction resources as [|r resources IH]; intros o; simpl; [done|].
  destruct (String.eqb_spec (Resource_Name r) "cpus") as [Hcpus|_].
  { rewrite Hcpus. simpl. unfold allocateCpuResource.
    destruct (0 <=? _)%float; [|done]. intros Hok. by apply IH in Hok. }
  destruct (String.eqb_spec (Resource_Name r) "mem") as [Hmem|_].
  { unfold allocateMemResource.
    destruct (0 <=? _)%float; [|done]. intros Hok. by apply IH in Hok. }
  destruct (String.eqb (Resource_Name r) "disk"); [|apply IH].
  unfold allocateDiskResource. destruct (Resource_Disk r); simpl.
  - intros Hok. by apply IH in Hok.
  - apply IH.
Qed.

(** C7: under a strategy that folds to mux, a successful [Assign] returns the
    raw offer of the first entry that fits.  When the entry's residual cpu is
    positive and its residual mem is not zero, the entry stays at its place in
    the pool with the residual values and the accepted flag, and an [Assign]
    for another task that it is the first to fit returns the same raw offer.
    Whatever else the task asks for, the residual cpu is the entry's cpu
    less the task's demands named cpus, and the residual mem its mem less
    the demands named mem; with one demand cpus c the residual cpu is the
    entry's cpu minus c.  The entry is removed when its residual cpu or mem
    equals zero, and only then. *)
Theorem Assign_mux_retains (d d' : DefaultResourceManager) (t : TaskInfo)
    (s : string) (raw : mesos_v1.Offer) :
  strategy d !! TaskInfo_Name t = Some s →
  strings.EqualFold s "mux" = true →
  Assign d t = Return (d', inl raw) →
  ∃ pre o post,
    offers d = (pre ++ o :: post)%list
    ∧ Forall (λ o, fits d t o = false) pre
    ∧ fits d t o = true
    ∧ raw = Offer o
    ∧ let o1 := fst (Assign_resources (TaskInfo_Resources t) o) in
      Cpu o1 = debit (Cpu o) (demands "cpus" (TaskInfo_Resources t))
      ∧ Mem o1 = debit (Mem o) (demands "mem" (TaskInfo_Resources t))
      ∧ (∀ r, demands "cpus" (TaskInfo_Resources t) = [r] →
              Cpu o1 = (Cpu o - Resource_Scalar r)%float)
      ∧ ((0 <? Cpu o1)%float = true → (Mem o1 =? 0)%float = false →
         offers d' = (map (scanned d t) pre ++ set_Accepted o1 :: post)%list
         ∧ ∀ t2, Forall (λ p, fits d' t2 p = false) (map (scanned d t) pre) →
                 fits d' t2 (set_Accepted o1) = true →
                 ∃ d'', Assign d' t2 = Return (d'', inl raw))
      ∧ ((Cpu o1 =? 0)%float = true ∨ (Mem o1 =? 0)%float = true →
         offers d' ≡ₚ (map (scanned d t) pre ++ post)%list)
      ∧ (length (offers d') < length (offers d) →
         (Cpu o1 =? 0)%float = true ∨ (Mem o1 =? 0)%float = true).
Proof.
  intros Hs Hmux Hassign.
  apply first_fit_success in Hassign
    as (pre & o & post & Hl & Hpre & Ho & Hraw & Hretain).
  exists pre, o, post. do 4 (split; [done|]).
  cbv zeta in Hretain |- *.
  rewrite (Assign_retain_mux _ _ _ _ s) in Hretain by done.
  simpl in Hretain.
  set (o1 := fst (Assign_resources (TaskInfo_Resources t) o)) in *.
  assert (Hin : length (map (scanned d t) pre)
                < length (offers (with_offers d
                    (map (scanned d t) pre ++ set_Accepted o1 :: post)%list))).
  { simpl. rewrite length_app. simpl. lia. }
  rewrite <- (length_map (scanned d t) pre) in Hretain.
  apply popOffer_in_range in Hin as (d2 & Hpop & Hperm & Hlen & _).
  rewrite Hpop in Hretain. simpl in Hperm, Hlen.
  rewrite delete_middle in Hperm.
  assert (Hres : Cpu o1 = debit (Cpu o) (demands "cpus" (TaskInfo_Resources t))
                 ∧ Mem o1 = debit (Mem o) (demands "mem" (TaskInfo_Resources t))).
  { unfold fits in Ho. apply andb_true_iff in Ho as [_ Hok].
    by apply Assign_resources_residual. }
  destruct Hres as [Hrcpu Hrmem].
  split; [done|]. split; [done|]. split; [|split; [|split]].
  - intros r Hone. by rewrite Hrcpu, Hone.
  - intros Hcpu%positive_not_zero Hmem. rewrite Hcpu, Hmem in Hretain.
    simpl in Hretain. injection Hretain as <-. split; [done|].
    intros t2 Hpre2 Ho2.
    edestruct (first_fit_again
                 (with_offers d (map (scanned d t) pre ++ set_Accepted o1 :: post)%list)
                 t2) as (d'' & Hd''); [done..|].
    exists d''. rewrite Hd'', Hraw. simpl. unfold o1.
    by destruct (Assign_resources_Offer (TaskInfo_Resources t) o) as [-> _].
  - intros Hzero.
    assert (Hgone : ((Mem o1 =? 0)%float || (Cpu o1 =? 0)%float) = true)
      by (destruct Hzero as [-> | ->]; by rewrite ?orb_true_r).
    rewrite Hgone in Hretain. by injection Hretain as <-.
  - intros Hshorter.
    destruct (Cpu o1 =? 0)%float; [by left|].
    destruct (Mem o1 =? 0)%float; [by right|].
    simpl in Hretain. injection Hretain as <-. simpl in Hshorter.
    rewrite Hl, !length_app, length_map in Hshorter. simpl in Hshorter. lia.
Qed.

Lemma mux_pool_registered (batch : list mesos_v1.Offer) (name : string) :
  AddFilter (pool_of batch) (task_cpu name 1) [mux_filter]
  = Return (mux_pool batch name, None).
Proof.
  simpl. unfold mux_pool, pool_of.
  rewrite AddOffers_offers.
  by destruct (AddOffers_registries NewDefaultResourceManager batch) as [-> ->].
Qed.

(** The scenario of C7 run: after the first task took cpu 1 of 4 under mux,
    the entry is still there with cpu 3, and a second task takes from it. *)
Example Assign_mux_twice :
  Assign (mux_pool [offer_4_4096] "task-1") (task_cpu "task-1" 1)
  = Return (with_offers (mux_pool [offer_4_4096] "task-1")
              [pool_entry offer_4_4096 3 4096 None true],
            inl offer_4_4096)
  ∧ Assign (with_offers (mux_pool [offer_4_4096] "task-1")
              [pool_entry offer_4_4096 3 4096 None true])
      (task_cpu "task-2" 2)
    = Return (with_offers (mux_pool [offer_4_4096] "task-1") [],
              inl offer_4_4096).
Proof. by vm_compute. Qed.

(** ** Filter kinds *)

Lemma filter_same_values (fs : list Filter) :
  ∀ (fs' : list Filter) (offer : mesos_v1.Offer),
    map Filter_Value fs = map Filter_Value fs' →
    filter fs offer = filter fs' offer.
Proof.
  induction fs as [|f fs IH]; intros [|f' fs'] offer Hv; simpl in *; try done.
  injection Hv as Hf Hfs. rewrite Hf. by rewrite (IH fs' offer Hfs).
Qed.

Lemma filter_attrs_text_only (value : list string) (attrs : list Attribute) :
  filter_attrs value attrs
  = filter_attrs value
      (List.filter (λ a, match Attribute_Type a with Value_TEXT => true | _ => false end)
         attrs).
Proof.
  induction attrs as [|a attrs IH]; simpl; [done|].
  destruct (Attribute_Type a) eqn:Hty; simpl; rewrite ?Hty; try done.
  by rewrite IH.
Qed.

(** C3, as the code has it: evaluation never looks at the kind a filter was
    registered with.  Two filter lists with the same values admit the same
    offers whatever the kinds, at [filter] and at the gate of [Assign]; and
    only the attributes of type TEXT of the offer count. *)
Theorem filter_ignores_kind :
  (∀ (fs fs' : list Filter) (offer : mesos_v1.Offer),
     map Filter_Value fs = map Filter_Value fs' →
     filter fs offer = filter fs' offer)
  ∧ (∀ (d1 d2 : DefaultResourceManager) (t : TaskInfo) (fs fs' : list Filter)
       (o : MesosOfferResources),
       filterOn d1 !! TaskInfo_Name t = Some fs →
       filterOn d2 !! TaskInfo_Name t = Some fs' →
       map Filter_Value fs = map Filter_Value fs' →
       admits d1 t o = admits d2 t o)
  ∧ (∀ (fs : list Filter) (offer : mesos_v1.Offer),
       filter fs offer = filter fs (text_attributes_only offer)).
Proof.
  split; [|split].
  - intros fs. apply filter_same_values.
  - intros d1 d2 t fs fs' o H1 H2 Hv. unfold admits. rewrite H1, H2.
    by apply filter_same_values.
  - intros fs offer. induction fs as [|f fs IH]; simpl; [done|].
    by rewrite <- filter_attrs_text_only, IH.
Qed.

(** ** Disk demands *)

Lemma Assign_resources_without_disk (resources : list Resource) :
  ∀ o1 o2 : MesosOfferResources,
    Cpu o1 = Cpu o2 → Mem o1 = Mem o2 →
    snd (Assign_resources resources o1)
    = snd (Assign_resources (without_disk resources) o2)
    ∧ Cpu (fst (Assign_resources resources o1))
      = Cpu (fst (Assign_resources (without_disk resources) o2))
    ∧ Mem (fst (Assign_resources resources o1))
      = Mem (fst (Assign_resources (without_disk resources) o2)).
Proof.
  induction resources as [|r resources IH]; intros o1 o2 Hc Hm; [done|].
  unfold without_disk. simpl.
  destruct (String.eqb_spec (Resource_Name r) "cpus") as [Hn|Hcpus].
  { rewrite Hn. simpl. rewrite Hn. simpl.
    unfold allocateCpuResource. rewrite Hc.
    destruct (0 <=? _)%float; [by apply IH | done]. }
  destruct (String.eqb_spec (Resource_Name r) "mem") as [Hn|Hmem].
  { rewrite Hn. simpl. rewrite Hn. simpl.
    unfold allocateMemResource. rewrite Hm.
    destruct (0 <=? _)%float; [by apply IH | done]. }
  destruct (String.eqb_spec (Resource_Name r) "disk") as [Hn|Hdisk].
  { simpl. unfold allocateDiskResource.
    destruct (Resource_Disk r); by apply IH. }
  simpl.
  destruct (String.eqb_spec (Resource_Name r) "cpus") as [|_]; [done|].
  destruct (String.eqb_spec (Resource_Name r) "mem") as [|_]; [done|].
  destruct (String.eqb_spec (Resource_Name r) "disk") as [|_]; [done|].
  by apply IH.
Qed.

(** C5, as the code has it: a demand named disk puts its own descriptor, when
    it has one, into the disk field of the pool entry and changes nothing else
    of it; cpu and mem are as without the demand, and whether the entry fits
    does not depend on the disk demands at all, descriptor or not.  The raw
    offer a successful [Assign] returns is the one the entry was built
    from. *)
Theorem disk_demand_sets_entry_disk :
  (∀ (r : Resource) (rest : list Resource) (o : MesosOfferResources),
     Resource_Name r = "disk" →
     Assign_resources (r :: rest) o
     = Assign_resources rest
         {| Offer := Offer o; Cpu := Cpu o; Mem := Mem o;
            Disk := match Resource_Disk r with
                    | Some disk => Some disk
                    | None => Disk o
                    end;
            Accepted := Accepted o |})
  ∧ (∀ (resources : list Resource) (o : MesosOfferResources),
       snd (Assign_resources resources o)
       = snd (Assign_resources (without_disk resources) o)
       ∧ Cpu (fst (Assign_resources resources o))
         = Cpu (fst (Assign_resources (without_disk resources) o))
       ∧ Mem (fst (Assign_resources resources o))
         = Mem (fst (Assign_resources (without_disk resources) o)))
  ∧ (∀ (r : Resource) (o : MesosOfferResources),
       Resource_Name r = "disk" → snd (Assign_resources [r] o) = true)
  ∧ (∀ (d d' : DefaultResourceManager) (t : TaskInfo) (raw : mesos_v1.Offer),
       Assign d t = Return (d', inl raw) → ∃ o, o ∈ offers d ∧ raw = Offer o).
Proof.
  split; [|split; [|split]].
  - intros r rest o Hn. simpl. rewrite Hn. simpl.
    unfold allocateDiskResource. destruct (Resource_Disk r); [done|].
    by destruct o.
  - intros resources o. by apply Assign_resources_without_disk.
  - intros r o Hn. simpl. by rewrite Hn.
  - intros d d' t raw (pre & o & post & Hl & _ & _ & Hraw & _)%first_fit_success.
    exists o. split; [|done]. rewrite Hl. apply elem_of_app. right. by left.
Qed.

(** * Further properties of the manager *)

(** ** The registries *)

(** X1: [ClearFilters] removes the filter list and the strategy of the task,
    and nothing else: a second call changes nothing, the pool and the
    registrations of tasks with another name are as before. *)
Theorem ClearFilters_idempotent (d : DefaultResourceManager) (t t' : TaskInfo) :
  ClearFilters (ClearFilters d t) t = ClearFilters d t
  ∧ filterOn (ClearFilters d t) !! TaskInfo_Name t = None
  ∧ strategy (ClearFilters d t) !! TaskInfo_Name t = None
  ∧ offers (ClearFilters d t) = offers d
  ∧ (TaskInfo_Name t ≠ TaskInfo_Name t' →
     filterOn (ClearFilters d t) !! TaskInfo_Name t' = filterOn d !! TaskInfo_Name t'
     ∧ strategy (ClearFilters d t) !! TaskInfo_Name t'
       = strategy d !! TaskInfo_Name t').
Proof.
  unfold ClearFilters. simpl. split; [|split; [|split; [|split]]].
  - by rewrite !delete_delete_eq.
  - apply lookup_delete_eq.
  - apply lookup_delete_eq.
  - done.
  - intros Hne. by rewrite !lookup_delete_ne.
Qed.

(** X2: whatever a call of [AddFilter] registered for a task, also when it
    stopped at an invalid entry, [ClearFilters] for that task undoes it: the
    manager is the one [ClearFilters] gives without the call. *)
Theorem ClearFilters_undoes_AddFilter (t : TaskInfo) (filters : list Filter) :
  ∀ (d d' : DefaultResourceManager) (e : option string),
    AddFilter d t filters = Return (d', e) →
    ClearFilters d' t = ClearFilters d t.
Proof.
  induction filters as [|f filters IH]; intros d d' e; simpl.
  - by intros [= <- _].
  - destruct (_ || _).
    { intros Hadd. rewrite (IH _ _ _ Hadd). unfold ClearFilters.
      destruct (filterOn d !! TaskInfo_Name t); simpl;
        by rewrite delete_insert_eq. }
    destruct (String.eqb _ "strategy"); [|by intros [= <- _]].
    destruct (Filter_Value f) as [|v vs]; [done|].
    intros Hadd. rewrite (IH _ _ _ Hadd). unfold ClearFilters. simpl.
    by rewrite delete_insert_eq.
Qed.

(** X3: [AddFilter] for one task touches neither the pool nor what is
    registered under another task name. *)
Theorem AddFilter_other_tasks (t t' : TaskInfo) (filters : list Filter) :
  ∀ (d d' : DefaultResourceManager) (e : option string),
    AddFilter d t filters = Return (d', e) →
    TaskInfo_Name t ≠ TaskInfo_Name t' →
    offers d' = offers d
    ∧ filterOn d' !! TaskInfo_Name t' = filterOn d !! TaskInfo_Name t'
    ∧ strategy d' !! TaskInfo_Name t' = strategy d !! TaskInfo_Name t'.
Proof.
  induction filters as [|f filters IH]; intros d d' e; simpl.
  - by intros [= <- _].
  - intros Hadd Hne. destruct (_ || _).
    { destruct (IH _ _ _ Hadd Hne) as (-> & -> & ->).
      destruct (filterOn d !! TaskInfo_Name t); simpl;
        by rewrite lookup_insert_ne. }
    destruct (String.eqb _ "strategy"); [|by injection Hadd as <- _].
    destruct (Filter_Value f) as [|v vs]; [done|].
    destruct (IH _ _ _ Hadd Hne) as (-> & -> & ->). simpl.
    by rewrite lookup_insert_ne.
Qed.

(** X4: entries of the kinds ranges, set, text and scalar are appended, in
    the order given and as they are, to what is already registered for the
    task; the strategy is left alone. *)
Theorem AddFilter_appends (t : TaskInfo) (filters : list Filter) :
  ∀ d : DefaultResourceManager,
    Forall (λ f, attribute_kind f = true) filters →
    filters ≠ [] →
    AddFilter d t filters
    = Return ({| offers := offers d;
                 filterOn :=
                   <[TaskInfo_Name t :=
                       (default [] (filterOn d !! TaskInfo_Name t) ++ filters)%list]>
                     (filterOn d);
                 strategy := strategy d |}, None).
Proof.
  induction filters as [|f filters IH]; intros d Hall Hne; [done|].
  apply Forall_cons in Hall as [Hf Hall]. simpl.
  unfold attribute_kind in Hf. cbv zeta in Hf. rewrite Hf.
  assert (Hentry : {| Filter_Type := Filter_Type f; Filter_Value := Filter_Value f |} = f)
    by (by destruct f).
  rewrite Hentry.
  destruct filters as [|g filters].
  - simpl. by destruct (filterOn d !! TaskInfo_Name t).
  - rewrite IH by done.
    destruct (filterOn d !! TaskInfo_Name t) as [old|]; simpl;
      rewrite lookup_insert_eq, insert_insert_eq; simpl.
    + by rewrite <- app_assoc.
    + done.
Qed.

(** X5: entries of kind strategy never enter the filter list, so a task with
    only a strategy registered is not gated by filters; each one overwrites
    the strategy with its first value, and the last one stands. *)
Theorem AddFilter_strategy_overwrites (t : TaskInfo) (filters : list Filter)
    (f : Filter) (v : string) (vs : list string) :
  ∀ d : DefaultResourceManager,
    Forall (λ f, strategy_kind f = true ∧ Filter_Value f ≠ []) filters →
    strategy_kind f = true →
    Filter_Value f = v :: vs →
    AddFilter d t (filters ++ [f])%list
    = Return ({| offers := offers d; filterOn := filterOn d;
                 strategy := <[TaskInfo_Name t := v]> (strategy d) |}, None).
Proof.
  intros d Hall Hf%strategy_kind_lower Hv. revert d.
  induction Hall as [|g filters [Hg%strategy_kind_lower Hgv] _ IH]; intros d; simpl.
  - by rewrite Hf, Hv.
  - rewrite Hg. simpl. destruct (Filter_Value g) as [|w ws]; [done|].
    rewrite IH. simpl. by rewrite insert_insert_eq.
Qed.

(** ** Removal *)

(** X6: [popOffer] panics exactly when the index is outside the pool; inside,
    it returns the pool without the entry at that index, up to order, with
    the entries before the index at their places and the registries as they
    were. *)
Theorem popOffer_removes_one (d : DefaultResourceManager) (i : nat) :
  ((length (offers d) ≤ i)%nat → popOffer d i = Panic index_out_of_range)
  ∧ (i < length (offers d) →
     ∃ d', popOffer d i = Return d'
           ∧ offers d' ≡ₚ delete i (offers d)
           ∧ take i (offers d') = take i (offers d)
           ∧ filterOn d' = filterOn d ∧ strategy d' = strategy d).
Proof.
  split.
  - intros Hi. unfold popOffer.
    rewrite (lookup_ge_None_2 (offers d) i Hi).
    by destruct (offers d !! (length (offers d) - 1)).
  - intros Hi. apply lookup_lt_is_Some_2 in Hi as [cur Hcur].
    apply list_elem_of_split_length in Hcur as (front & back & Hl & ->).
    destruct back as [|b back _] using rev_ind.
    + exists (with_offers d front). rewrite (popOffer_last d front cur Hl).
      rewrite Hl, delete_middle, app_nil_r, take_app_length. simpl.
      by rewrite firstn_all.
    + exists (with_offers d (front ++ b :: back)%list).
      rewrite (popOffer_middle d front back cur b Hl).
      rewrite Hl, delete_middle, !take_app_length. simpl.
      repeat split;
        [apply Permutation_app_head, (Permutation_app_comm [b] back)
        |apply take_app_length].
Qed.

(** ** Intake *)

Lemma AddOffers_resource_fields (o : MesosOfferResources) (r : Resource) :
  Offer (AddOffers_resource o r) = Offer o
  ∧ Accepted (AddOffers_resource o r) = Accepted o.
Proof.
  unfold AddOffers_resource.
  by destruct (String.eqb (Resource_Name r) "cpus"),
       (String.eqb (Resource_Name r) "mem"),
       (String.eqb (Resource_Name r) "disk").
Qed.

Lemma AddOffers_entry_fields (offer : mesos_v1.Offer) :
  Offer (AddOffers_entry offer) = offer ∧ Accepted (AddOffers_entry offer) = false.
Proof.
  unfold AddOffers_entry.
  assert (Hinit : ∀ o, Offer o = offer → Accepted o = false →
            Offer (fold_left AddOffers_resource (Offer_Resources offer) o) = offer
            ∧ Accepted (fold_left AddOffers_resource (Offer_Resources offer) o) = false).
  { induction (Offer_Resources offer) as [|r rs IH]; intros o Ho Ha; simpl; [done|].
    destruct (AddOffers_resource_fields o r) as [Hro Hra].
    apply IH; congruence. }
  by apply Hinit.
Qed.

Lemma AddOffers_fold_Cpu (rs : list Resource) (init : MesosOfferResources) :
  Cpu (fold_left AddOffers_resource rs init)
  = match last_named "cpus" rs with
    | Some r => Resource_Scalar r
    | None => Cpu init
    end.
Proof.
  unfold last_named. induction rs as [|r rs IH] using rev_ind; [done|].
  rewrite fold_left_app, rev_unit. simpl. unfold AddOffers_resource at 1.
  destruct (String.eqb (Resource_Name r) "cpus"); [done|].
  destruct (String.eqb (Resource_Name r) "mem"); [done|].
  by destruct (String.eqb (Resource_Name r) "disk").
Qed.

Lemma AddOffers_fold_Mem (rs : list Resource) (init : MesosOfferResources) :
  Mem (fold_left AddOffers_resource rs init)
  = match last_named "mem" rs with
    | Some r => Resource_Scalar r
    | None => Mem init
    end.
Proof.
  unfold last_named. induction rs as [|r rs IH] using rev_ind; [done|].
  rewrite fold_left_app, rev_unit. simpl. unfold AddOffers_resource at 1.
  destruct (String.eqb_spec (Resource_Name r) "cpus") as [Hcpus|_].
  { by rewrite Hcpus. }
  destruct (String.eqb (Resource_Name r) "mem"); [done|].
  by destruct (String.eqb (Resource_Name r) "disk").
Qed.

Lemma AddOffers_fold_Disk (rs : list Resource) (init : MesosOfferResources) :
  Disk (fold_left AddOffers_resource rs init)
  = match last_named "disk" rs with
    | Some r => Resource_Disk r
    | None => Disk init
    end.
Proof.
  unfold last_named. induction rs as [|r rs IH] using rev_ind; [done|].
  rewrite fold_left_app, rev_unit. simpl. unfold AddOffers_resource at 1.
  destruct (String.eqb_spec (Resource_Name r) "cpus") as [Hcpus|_].
  { by rewrite Hcpus. }
  destruct (String.eqb_spec (Resource_Name r) "mem") as [Hmem|_].
  { by rewrite Hmem. }
  by destruct (String.eqb (Resource_Name r) "disk").
Qed.

(** X7: the entry [AddOffers] builds for a raw offer takes, for each of the
    names cpus, mem and disk, the last line item of that name (zero, or no
    descriptor, when there is none); line items of other names count for
    nothing; the entry refers to the raw offer and is not accepted. *)
Theorem AddOffers_entry_last_named (offer : mesos_v1.Offer) :
  Cpu (AddOffers_entry offer)
  = match last_named "cpus" (Offer_Resources offer) with
    | Some r => Resource_Scalar r
    | None => 0%float
    end
  ∧ Mem (AddOffers_entry offer)
    = match last_named "mem" (Offer_Resources offer) with
      | Some r => Resource_Scalar r
      | None => 0%float
      end
  ∧ Disk (AddOffers_entry offer)
    = match last_named "disk" (Offer_Resources offer) with
      | Some r => Resource_Disk r
      | None => None
      end
  ∧ Offer (AddOffers_entry offer) = offer
  ∧ Accepted (AddOffers_entry offer) = false.
Proof.
  split; [|split; [|split; [|apply AddOffers_entry_fields]]].
  - apply AddOffers_fold_Cpu.
  - apply AddOffers_fold_Mem.
  - apply AddOffers_fold_Disk.
Qed.

(** X8: right after [AddOffers], [Offers] returns the batch as it was given,
    whatever the pool held before; the registries are as before the call. *)
Theorem Offers_after_AddOffers (d : DefaultResourceManager)
    (batch : list mesos_v1.Offer) :
  Offers (AddOffers d batch) = batch
  ∧ filterOn (AddOffers d batch) = filterOn d
  ∧ strategy (AddOffers d batch) = strategy d.
Proof.
  split; [|apply AddOffers_registries].
  unfold Offers. rewrite AddOffers_offers.
  induction batch as [|offer batch IH]; simpl; [done|].
  destruct (AddOffers_entry_fields offer) as [Ho Ha].
  rewrite Ha. simpl. by rewrite Ho, IH.
Qed.

(** ** The scan, whatever the strategy *)

Lemma scanned_fields (d : DefaultResourceManager) (t : TaskInfo)
    (o : MesosOfferResources) :
  Offer (scanned d t o) = Offer o ∧ Accepted (scanned d t o) = Accepted o.
Proof.
  unfold scanned. destruct (admits d t o); [|done].
  apply Assign_resources_Offer.
Qed.

Lemma Offers_scanned (d : DefaultResourceManager) (t : TaskInfo)
    (l : list MesosOfferResources) :
  map Offer (List.filter (λ o, negb (Accepted o)) (map (scanned d t) l))
  = map Offer (List.filter (λ o, negb (Accepted o)) l).
Proof.
  induction l as [|o l IH]; simpl; [done|].
  destruct (scanned_fields d t o) as [Ho Ha]. rewrite Ha.
  destruct (Accepted o); simpl; [done|]. by rewrite Ho, IH.
Qed.

Lemma filter_Permutation_Stdlib {A : Type} (p : A → bool) (l l' : list A) :
  l ≡ₚ l' → List.filter p l ≡ₚ List.filter p l'.
Proof.
  induction 1 as [|x l l' _ IH|x y l|l l' l'' _ IH1 _ IH2]; simpl.
  - done.
  - destruct (p x); [by constructor | done].
  - destruct (p x), (p y); try done. apply perm_swap.
  - by etrans.
Qed.

Lemma Assign_fails_iff (d : DefaultResourceManager) (t : TaskInfo) :
  Forall (λ o, fits d t o = false) (offers d)
  ↔ ∃ d', Assign d t = Return (d', inr (not_found t)).
Proof.
  split.
  - intros Hnone. eexists. by apply (Assign_from_none t (offers d) d []).
  - intros [d' Hfail].
    destruct (Assign_cases d t) as [[Hnone _]|(pre & o & post & _ & _ & _ & Heq)];
      [done|].
    rewrite Heq in Hfail. by destruct (Assign_retain _ _ _ _).
Qed.

Lemma Assign_failure (d d' : DefaultResourceManager) (t : TaskInfo) (e : string) :
  Assign d t = Return (d', inr e) →
  e = not_found t
  ∧ d' = with_offers d (map (scanned d t) (offers d))
  ∧ Forall (λ o, fits d t o = false) (offers d).
Proof.
  destruct (Assign_cases d t) as [[Hnone ->]|(pre & o & post & _ & _ & _ & ->)].
  - by intros [= <- <-].
  - by destruct (Assign_retain _ _ _ _).
Qed.

Lemma Assign_success (d d' : DefaultResourceManager) (t : TaskInfo)
    (raw : mesos_v1.Offer) :
  Assign d t = Return (d', inl raw) →
  ∃ pre o post,
    offers d = (pre ++ o :: post)%list
    ∧ Forall (λ o, fits d t o = false) pre
    ∧ fits d t o = true
    ∧ raw = Offer o
    ∧ (offers d'
       = (map (scanned d t) pre
          ++ set_Accepted (fst (Assign_resources (TaskInfo_Resources t) o))
          :: post)%list
       ∨ offers d' ≡ₚ (map (scanned d t) pre ++ post)%list)
    ∧ filterOn d' = filterOn d ∧ strategy d' = strategy d.
Proof.
  intros (pre & o & post & Hl & Hpre & Ho & Hraw & Hretain)%first_fit_success.
  exists pre, o, post. do 4 (split; [done|]).
  cbv zeta in Hretain.
  rewrite <- (length_map (scanned d t) pre) in Hretain.
  edestruct (Assign_retain_in_range
               (with_offers d (map (scanned d t) pre
                  ++ set_Accepted (fst (Assign_resources (TaskInfo_Resources t) o))
                  :: post)%list) t (length (map (scanned d t) pre)))
    as (d2 & Heq & Hcase & Hf & Hs).
  { simpl. rewrite length_app. simpl. lia. }
  rewrite Heq in Hretain. injection Hretain as <-.
  split; [|done].
  destruct Hcase as [->|Hperm]; [by left|].
  right. simpl in Hperm. by rewrite delete_middle in Hperm.
Qed.

(** X9: [Assign] never panics (the index it removes is the one it matched),
    never touches the registries, and leaves a pool of the same length or
    one entry shorter. *)
Theorem Assign_returns (d : DefaultResourceManager) (t : TaskInfo) :
  ∃ d' r, Assign d t = Return (d', r)
          ∧ filterOn d' = filterOn d ∧ strategy d' = strategy d
          ∧ (length (offers d') ≤ length (offers d))%nat
          ∧ (length (offers d) ≤ length (offers d') + 1)%nat.
Proof.
  destruct (Assign_total d t) as (d' & r & Heq & Hf & Hs).
  exists d', r. do 3 (split; [done|]).
  destruct r as [raw|e].
  - apply Assign_success in Heq
      as (pre & o & post & Hl & _ & _ & _ & [Hd'|Hd'] & _);
      rewrite Hd', Hl, !length_app, length_map; simpl; lia.
  - apply Assign_failure in Heq as (_ & -> & _). simpl.
    rewrite length_map. lia.
Qed.

(** X10: [Assign] fails exactly when no pool entry passes the filter gate
    and takes all the demands of the task; the only error it returns is the
    not-found error with the task's name. *)
Theorem Assign_not_found_iff (d : DefaultResourceManager) (t : TaskInfo) :
  (Forall (λ o, fits d t o = false) (offers d)
   ↔ ∃ d', Assign d t = Return (d', inr (not_found t)))
  ∧ (∀ d' e, Assign d t = Return (d', inr e) →
             e = "Cannot find a suitable offer for task " ++ TaskInfo_Name t).
Proof.
  split; [apply Assign_fails_iff|].
  intros d' e Hfail. by apply Assign_failure in Hfail as [-> _].
Qed.

(** X11: for a task with no filter registered, [Assign] fails only for lack
    of capacity: exactly when the task's demands fit into no pool entry. *)
Theorem Assign_without_filters (d : DefaultResourceManager) (t : TaskInfo) :
  filterOn d !! TaskInfo_Name t = None →
  (Forall (λ o, snd (Assign_resources (TaskInfo_Resources t) o) = false) (offers d)
   ↔ ∃ d', Assign d t = Return (d', inr (not_found t))).
Proof.
  intros Hnone. rewrite <- Assign_fails_iff.
  apply Forall_iff. intros o. unfold fits, admits. by rewrite Hnone.
Qed.

(** X12: a failed [Assign] leaves the pool as long as it was, with the same
    raw offers and accepted flags at the same places, so [Offers] returns
    what it returned before. *)
Theorem failed_Assign_keeps_Offers (d d' : DefaultResourceManager)
    (t : TaskInfo) (e : string) :
  Assign d t = Return (d', inr e) →
  Offers d' = Offers d
  ∧ map Offer (offers d') = map Offer (offers d)
  ∧ map Accepted (offers d') = map Accepted (offers d).
Proof.
  intros (_ & -> & _)%Assign_failure. simpl. split; [apply Offers_scanned|].
  split; rewrite map_map; apply map_ext; intros o; apply scanned_fields.
Qed.

(** X13: after a successful [Assign], [Offers] lists the raw offers of the
    other entries that were not accepted before, and not the entry that was
    matched, whether the strategy kept it in the pool or not. *)
Theorem Offers_after_Assign (d d' : DefaultResourceManager) (t : TaskInfo)
    (raw : mesos_v1.Offer) :
  Assign d t = Return (d', inl raw) →
  ∃ pre o post,
    offers d = (pre ++ o :: post)%list
    ∧ raw = Offer o
    ∧ Offers d' ≡ₚ map Offer (List.filter (λ o, negb (Accepted o)) (pre ++ post)%list).
Proof.
  intros (pre & o & post & Hl & _ & _ & Hraw & Hd' & _)%Assign_success.
  exists pre, o, post. do 2 (split; [done|]).
  unfold Offers. destruct Hd' as [->|Hperm].
  - rewrite !List.filter_app. simpl. rewrite !map_app, Offers_scanned. done.
  - rewrite (filter_Permutation_Stdlib _ _ _ Hperm).
    by rewrite !List.filter_app, !map_app, Offers_scanned.
Qed.

(** X14: a task with filters registered is only ever assigned an offer that
    has a text attribute equal, up to case, to the first term of one of its
    filters. *)
Theorem Assign_respects_filters (d d' : DefaultResourceManager) (t : TaskInfo)
    (raw : mesos_v1.Offer) (fs : list Filter) :
  filterOn d !! TaskInfo_Name t = Some fs →
  Assign d t = Return (d', inl raw) →
  ∃ f a term rest,
    f ∈ fs ∧ a ∈ Offer_Attributes raw ∧ Attribute_Type a = TEXT
    ∧ Filter_Value f = term :: rest
    ∧ strings.ToLower term = strings.ToLower (Attribute_Text a).
Proof.
  intros Hfs (pre & o & post & _ & _ & Ho & -> & _)%Assign_success.
  unfold fits, admits in Ho. rewrite Hfs in Ho.
  apply andb_true_iff in Ho as [Hfilter _].
  apply filter_true in Hfilter as (f & Hf & Hattrs).
  apply filter_attrs_true in Hattrs as (a & Ha & Hty & Htxt).
  apply filterOnAttrText_true in Htxt as (term & rest & Hv & Heq).
  by exists f, a, term, rest.
Qed.

(** X15: for a task with a single demand, named cpus or mem, a failed
    [Assign] changes nothing at all: the half-taken offers of a failed scan
    need a second demand. *)
Theorem failed_Assign_single_demand (d d' : DefaultResourceManager)
    (t : TaskInfo) (r : Resource) (e : string) :
  TaskInfo_Resources t = [r] →
  Resource_Name r = "cpus" ∨ Resource_Name r = "mem" →
  Assign d t = Return (d', inr e) →
  d' = d.
Proof.
  intros Hres Hname (_ & -> & Hnone)%Assign_failure.
  assert (Hsame : map (scanned d t) (offers d) = offers d).
  { induction Hnone as [|o l Ho _ IH]; simpl; [done|]. rewrite IH. f_equal.
    unfold fits in Ho. unfold scanned.
    destruct (admits d t o); [|done]. simpl in Ho.
    rewrite Hres in Ho |- *. simpl in Ho |- *.
    destruct Hname as [Hn|Hn]; rewrite Hn in Ho |- *; simpl in Ho |- *.
    - unfold allocateCpuResource in *. by destruct (0 <=? _)%float.
    - unfold allocateMemResource in *. by destruct (0 <=? _)%float. }
  rewrite Hsame. by destruct d.
Qed.

(** X16: when the demands of a task fit into an entry, what is left of its
    cpu is its cpu less each demand named cpus, taken in the order of the
    task's list, and likewise for mem; the raw offer and the accepted flag
    are as before. *)
Theorem Assign_resources_conserves (resources : list Resource) :
  ∀ o : MesosOfferResources,
    snd (Assign_resources resources o) = true →
    Cpu (fst (Assign_resources resources o))
    = fold_left (λ acc r, (acc - Resource_Scalar r)%float)
        (List.filter (λ r, String.eqb (Resource_Name r) "cpus") resources) (Cpu o)
    ∧ Mem (fst (Assign_resources resources o))
      = fold_left (λ acc r, (acc - Resource_Scalar r)%float)
          (List.filter (λ r, String.eqb (Resource_Name r) "mem") resources) (Mem o).
Proof.
  induction resources as [|r resources IH]; intros o; simpl; [done|].
  destruct (String.eqb_spec (Resource_Name r) "cpus") as [Hcpus|_].
  { rewrite Hcpus. simpl. unfold allocateCpuResource.
    destruct (0 <=? _)%float; [|done]. intros Hok. by apply IH in Hok. }
  destruct (String.eqb_spec (Resource_Name r) "mem") as [Hmem|_].
  { unfold allocateMemResource.
    destruct (0 <=? _)%float; [|done]. intros Hok. by apply IH in Hok. }
  destruct (String.eqb (Resource_Name r) "disk"); [|apply IH].
  unfold allocateDiskResource. destruct (Resource_Disk r); simpl.
  - intros Hok. by apply IH in Hok.
  - apply IH.
Qed.

(** ** The scalar helper *)

(** X17: unlike the text check, [filterOnAttrScalar] goes through all the
    terms: it is true exactly when some term parses, without an error, to a
    float equal to the attribute's scalar; terms that do not parse are passed
    over. *)
Theorem filterOnAttrScalar_any_term (ParseFloat : string → float * option string)
    (f : list string) (a : Attribute) :
  filterOnAttrScalar ParseFloat f a = true
  ↔ ∃ term v, term ∈ f ∧ ParseFloat term = (v, None)
              ∧ (Attribute_Scalar a =? v)%float = true.
Proof.
  induction f as [|term f IH]; simpl.
  - split; [done | by intros (? & ? & ?%elem_of_nil & _)].
  - destruct (ParseFloat term) as [v err] eqn:Hparse.
    destruct err as [err|].
    + rewrite IH. split.
      * intros (u & w & Hin & Hu). exists u, w. split; [by right | done].
      * intros (u & w & Hin & Hu & Heq).
        apply elem_of_cons in Hin as [->|Hin]; [congruence | by eauto].
    + destruct (Attribute_Scalar a =? v)%float eqn:Hv.
      * split; [|done]. intros _. exists term, v. split; [by left | done].
      * rewrite IH. split.
        -- intros (u & w & Hin & Hu). exists u, w. split; [by right | done].
        -- intros (u & w & Hin & Hu & Heq).
           apply elem_of_cons in Hin as [->|Hin]; [congruence | by eauto].
Qed.

(** ** [ParseContainer] *)

(** X18: an error of the volume parser is returned, prefixed, and no
    container with it; this comes before the image name is read, so it is
    what a description without an image name gets as well.  Without a
    description there is neither container nor error. *)
Theorem ParseContainer_volume_error `{E : container.Collaborators}
    (c : container.ContainerJSON) (vol : list container.Volume) (err : string) :
  container.Volumes c ≠ [] →
  container.ParseVolumeJSON (container.Volumes c) = (vol, Some err) →
  container.ParseContainer (Some c)
  = Return (None, Some ("Error parsing volume JSON: " ++ err))
  ∧ container.ParseContainer None = Return (None, None).
Proof.
  intros Hne Hparse. split; [|done]. unfold container.ParseContainer.
  destruct (container.ParseNetworkJSON (container.Network c)) as [networks _].
  destruct (container.Volumes c) as [|v vs] eqn:Hv; [done|]. simpl.
  by rewrite Hparse.
Qed.

(** X19: a description without an image name whose volumes parse makes
    [ParseContainer] panic on the nil pointer; the branch that would return a
    container without Mesos information is never taken, so a container that
    is returned always has an image name behind it, Mesos information and no
    error. *)
Theorem ParseContainer_needs_image `{E : container.Collaborators} :
  (∀ (c : container.ContainerJSON) (vol : list container.Volume),
     container.ImageName c = None →
     container.Volumes c = []
     ∨ container.ParseVolumeJSON (container.Volumes c) = (vol, None) →
     container.ParseContainer (Some c) = Panic container.nil_dereference)
  ∧ (∀ (c : option container.ContainerJSON) (info : container.ContainerInfo)
       (e : option string),
       container.ParseContainer c = Return (Some info, e) →
       e = None
       ∧ ∃ c' name,
           c = Some c' ∧ container.ImageName c' = Some name
           ∧ container.Mesos info
             = Some (container.CreateMesosInfo (container.CreateImage name))).
Proof.
  split.
  - intros c vol Himage Hvol. unfold container.ParseContainer.
    destruct (container.ParseNetworkJSON (container.Network c)) as [networks _].
    destruct Hvol as [Hvol|Hvol].
    + rewrite Hvol. simpl. by rewrite Himage.
    + destruct (Nat.ltb 0 (length (container.Volumes c)));
        [rewrite Hvol|]; by rewrite Himage.
  - intros [c|] info e; [|done]. unfold container.ParseContainer.
    destruct (container.ParseNetworkJSON (container.Network c)) as [networks _].
    destruct (if Nat.ltb 0 (length (container.Volumes c))
              then container.ParseVolumeJSON (container.Volumes c)
              else ([], None)) as [vol [err|]]; [done|].
    destruct (container.ImageName c) as [name|] eqn:Himage; [|done]. simpl.
    destruct (container.ContainerType c) as [ty|].
    + destruct (String.eqb (strings.ToLower ty) "docker");
        intros [= <- <-]; split; [done| |done|]; by exists c, name.
    + intros [= <- <-]. split; [done|]. by exists c, name.
Qed.

Lemma ParseContainer_result `{E : container.Collaborators}
    (c : container.ContainerJSON) (info : container.ContainerInfo)
    (e : option string) :
  container.ParseContainer (Some c) = Return (Some info, e) →
  (container.Type_ info = container.ContainerInfo_DOCKER
   ↔ ∃ ty, container.ContainerType c = Some ty
           ∧ strings.ToLower ty = "docker")
  ∧ (container.Type_ info = container.ContainerInfo_DOCKER
     ↔ is_Some (container.Docker info))
  ∧ (container.Type_ info = container.ContainerInfo_DOCKER
     ∨ container.Type_ info = container.ContainerInfo_MESOS)
  ∧ container.NetworkInfos_ info
    = fst (container.ParseNetworkJSON (container.Network c))
  ∧ container.Volumes_ info
    = match container.Volumes c with
      | [] => []
      | _ => fst (container.ParseVolumeJSON (container.Volumes c))
      end.
Proof.
  unfold container.ParseContainer.
  destruct (container.ParseNetworkJSON (container.Network c)) as [networks nerr].
  assert (Hvols : (if Nat.ltb 0 (length (container.Volumes c))
                   then container.ParseVolumeJSON (container.Volumes c)
                   else ([], None)).1
                  = match container.Volumes c with
                    | [] => []
                    | _ => fst (container.ParseVolumeJSON (container.Volumes c))
                    end) by (by destruct (container.Volumes c)).
  destruct (if Nat.ltb 0 (length (container.Volumes c))
            then container.ParseVolumeJSON (container.Volumes c)
            else ([], None)) as [vol [err|]]; [done|].
  simpl in Hvols. rewrite <- Hvols.
  destruct (container.ImageName c) as [name|]; [|done]. simpl.
  destruct (container.ContainerType c) as [ty|].
  - destruct (String.eqb_spec (strings.ToLower ty) "docker") as [Hdocker|Hother];
      intros [= <- <-]; simpl.
    + repeat split; eauto.
    + repeat split; try done; try (by right);
        try (by intros (ty' & [= <-] & Hty')); by intros [? ?].
  - intros [= <- <-]. simpl.
    repeat split; try done; try (by right);
      try (by intros (ty' & ? & _)); by intros [? ?].
Qed.

(** X20: a container that is returned is of type DOCKER exactly when
    [strings.ToLower] of the container type the description names is
    "docker", and exactly then it carries Docker information, beside its
    Mesos information; otherwise it is of type MESOS.  It has the networks
    the network parser returned, error or not, and the parsed volumes (none
    for an empty list, for which the volume parser is not called).  For a
    container type of ASCII bytes the test is: docker, in any case of the
    letters. *)
Theorem ParseContainer_type `{E : container.Collaborators}
    (c : container.ContainerJSON) (info : container.ContainerInfo)
    (e : option string) :
  container.ParseContainer (Some c) = Return (Some info, e) →
  (container.Type_ info = container.ContainerInfo_DOCKER
   ↔ ∃ ty, container.ContainerType c = Some ty
           ∧ strings.ToLower ty = "docker")
  ∧ (container.Type_ info = container.ContainerInfo_DOCKER
     ↔ is_Some (container.Docker info))
  ∧ (container.Type_ info = container.ContainerInfo_DOCKER
     ∨ container.Type_ info = container.ContainerInfo_MESOS)
  ∧ container.NetworkInfos_ info
    = fst (container.ParseNetworkJSON (container.Network c))
  ∧ container.Volumes_ info
    = match container.Volumes c with
      | [] => []
      | _ => fst (container.ParseVolumeJSON (container.Volumes c))
      end
  ∧ (∀ ty, container.ContainerType c = Some ty →
           strings.isASCII ty = true →
           (container.Type_ info = container.ContainerInfo_DOCKER
            ↔ equal_up_to_case ty "docker" = true)).
Proof.
  intros Hparse.
  destruct (ParseContainer_result c info e Hparse) as (Hty & Hdocker & Hcases & Hnet & Hvol).
  do 5 (split; [done|]).
  intros ty Hsome Hascii. rewrite Hty, <- (lowerASCII_equal ty "docker").
  rewrite <- (ToLower_ASCII ty Hascii). split.
  - intros (ty' & Hty' & Hlow). rewrite Hsome in Hty'.
    injection Hty' as <-. by rewrite Hlow.
  - intros Hlow. exists ty. split; [done|]. by rewrite Hlow.
Qed.

(** ** Strategy values *)

(** X21: [AddFilter] stores any strategy value without looking at it, and a
    value that does not fold to mux counts as the default: a successful
    [Assign] for the task then removes the matched entry, whatever is left
    of it, and the pool is one entry shorter. *)
Theorem Assign_other_strategy_single_use (d d' : DefaultResourceManager)
    (t : TaskInfo) (s : string) (raw : mesos_v1.Offer) :
  strategy d !! TaskInfo_Name t = Some s →
  strings.EqualFold s "mux" = false →
  Assign d t = Return (d', inl raw) →
  length (offers d') + 1 = length (offers d)
  ∧ ∃ pre o post,
      offers d = (pre ++ o :: post)%list ∧ raw = Offer o
      ∧ offers d' ≡ₚ (map (scanned d t) pre ++ post)%list.
Proof.
  intros Hs Hfold (pre & o & post & Hl & _ & _ & Hraw & Hretain)%first_fit_success.
  cbv zeta in Hretain. unfold Assign_retain in Hretain. simpl in Hretain.
  rewrite Hs, Hfold in Hretain. simpl in Hretain.
  rewrite <- (length_map (scanned d t) pre) in Hretain.
  edestruct popOffer_in_range as (d2 & Hpop & Hperm & Hlen & _);
    [|rewrite Hpop in Hretain].
  { simpl. rewrite length_app. simpl. lia. }
  injection Hretain as <-. simpl in Hperm, Hlen.
  rewrite delete_middle in Hperm. split.
  - rewrite Hlen, Hl, !length_app, length_map. done.
  - by exists pre, o, post.
Qed.

End manager.

(** * Runs on concrete managers *)

#[local] Existing Instance sample_unicode.

Lemma AddFilter_invalid_kind_witness :
  AddFilter NewDefaultResourceManager (task_cpu "t" 1)
    [text_filter ["gpu"]; bogus_filter; scalar_filter ["1"]]
  = Return ({| offers := [];
               filterOn := {[ "t" := [text_filter ["gpu"]] ]};
               strategy := ∅ |},
            Some "Invalid filter passed in: bogus. Allowed filters are SCALAR, TEXT, SET, RANGES, and STRATEGY.").
Proof.
  apply (AddFilter_invalid_kind NewDefaultResourceManager _ (task_cpu "t" 1)
           [text_filter ["gpu"]] [scalar_filter ["1"]] bogus_filter);
    reflexivity.
Defined.

(** C9, as stated, fails: a call whose list holds an entry of an unrecognised
    kind does not return the invalid-filter error when a strategy entry
    without a value comes first; it panics on [f.Value[0]]. *)
Lemma AddFilter_panics_before_invalid_kind :
  bogus_filter ∈ [strategy_without_value; bogus_filter]
  ∧ recognised_kind bogus_filter = false
  ∧ AddFilter NewDefaultResourceManager (task_cpu "t" 1)
      [strategy_without_value; bogus_filter]
    = Panic "runtime error: index out of range".
Proof.
  split; [|by split].
  apply list_elem_of_further, list_elem_of_here.
Qed.

Lemma AddFilter_strategy_without_value_witness :
  AddFilter NewDefaultResourceManager (task_cpu "t" 1)
    [text_filter ["gpu"]; strategy_without_value; mux_filter]
  = Panic "runtime error: index out of range".
Proof.
  apply (proj1 AddFilter_strategy_without_value NewDefaultResourceManager
           {| offers := []; filterOn := {[ "t" := [text_filter ["gpu"]] ]};
              strategy := ∅ |}
           (task_cpu "t" 1) [text_filter ["gpu"]] [mux_filter]
           strategy_without_value);
    reflexivity.
Defined.

(** C10, as stated, fails: a call that contains a strategy entry without a
    value returns normally, with the invalid-filter error, when an entry of
    an unrecognised kind comes first. *)
Lemma AddFilter_strategy_without_value_not_reached :
  strategy_without_value ∈ [bogus_filter; strategy_without_value]
  ∧ strings.ToLower (Filter_Type strategy_without_value) = "strategy"
  ∧ Filter_Value strategy_without_value = []
  ∧ AddFilter NewDefaultResourceManager (task_cpu "t" 1)
      [bogus_filter; strategy_without_value]
    = Return (NewDefaultResourceManager,
              Some "Invalid filter passed in: bogus. Allowed filters are SCALAR, TEXT, SET, RANGES, and STRATEGY.").
Proof.
  split; [|by repeat split].
  apply list_elem_of_further, list_elem_of_here.
Qed.

Lemma scalar_invariant_preserved_witness :
  pool_nonneg
    {| offers := [{| Offer := offer_4_100; Cpu := 3; Mem := 100; Disk := None;
                     Accepted := false |}];
       filterOn := ∅; strategy := ∅ |}.
Proof.
  apply (proj1 scalar_invariant_preserved (pool_of [offer_4_100])).
  - repeat constructor.
  - apply (step_Assign _ (task_cpu_mem "task" 1 200) _
             (inr "Cannot find a suitable offer for task task")).
    vm_compute. reflexivity.
Defined.

Lemma Assign_non_mux_single_use_witness :
  ∃ pre o post,
    offers (pool_of [offer_4_4096; offer_4_100]) = (pre ++ o :: post)%list
    ∧ Forall (λ o, fits (pool_of [offer_4_4096; offer_4_100])
                     (task_cpu "task-1" 1) o = false) pre
    ∧ fits (pool_of [offer_4_4096; offer_4_100]) (task_cpu "task-1" 1) o = true
    ∧ offer_4_4096 = Offer o
    ∧ offers (pool_of [offer_4_100])
      ≡ₚ (map (scanned (pool_of [offer_4_4096; offer_4_100])
                 (task_cpu "task-1" 1)) pre ++ post)%list
    ∧ length (offers (pool_of [offer_4_100])) + 1
      = length (offers (pool_of [offer_4_4096; offer_4_100])).
Proof.
  apply (proj1 Assign_non_mux_single_use
           (pool_of [offer_4_4096; offer_4_100]) (pool_of [offer_4_100])
           (task_cpu "task-1" 1) offer_4_4096).
  - reflexivity.
  - vm_compute. reflexivity.
Defined.

Lemma Assign_mux_retains_witness :
  ∃ pre o post,
    offers (mux_pool [offer_4_4096] "task-1") = (pre ++ o :: post)%list
    ∧ Forall (λ o, fits (mux_pool [offer_4_4096] "task-1")
                     (task_cpu "task-1" 1) o = false) pre
    ∧ fits (mux_pool [offer_4_4096] "task-1") (task_cpu "task-1" 1) o = true
    ∧ offer_4_4096 = Offer o
    ∧ let d := mux_pool [offer_4_4096] "task-1" in
      let d' := with_offers d [pool_entry offer_4_4096 3 4096 None true] in
      let t := task_cpu "task-1" 1 in
      let o1 := fst (Assign_resources (TaskInfo_Resources t) o) in
      Cpu o1 = debit (Cpu o) (demands "cpus" (TaskInfo_Resources t))
      ∧ Mem o1 = debit (Mem o) (demands "mem" (TaskInfo_Resources t))
      ∧ (∀ r, demands "cpus" (TaskInfo_Resources t) = [r] →
              Cpu o1 = (Cpu o - Resource_Scalar r)%float)
      ∧ ((0 <? Cpu o1)%float = true → (Mem o1 =? 0)%float = false →
         offers d' = (map (scanned d t) pre ++ set_Accepted o1 :: post)%list
         ∧ ∀ t2, Forall (λ p, fits d' t2 p = false) (map (scanned d t) pre) →
                 fits d' t2 (set_Accepted o1) = true →
                 ∃ d'', Assign d' t2 = Return (d'', inl offer_4_4096))
      ∧ ((Cpu o1 =? 0)%float = true ∨ (Mem o1 =? 0)%float = true →
         offers d' ≡ₚ (map (scanned d t) pre ++ post)%list)
      ∧ (length (offers d') < length (offers d) →
         (Cpu o1 =? 0)%float = true ∨ (Mem o1 =? 0)%float = true).
Proof.
  apply (Assign_mux_retains (mux_pool [offer_4_4096] "task-1")
           (with_offers (mux_pool [offer_4_4096] "task-1")
              [pool_entry offer_4_4096 3 4096 None true])
           (task_cpu "task-1" 1) "mux" offer_4_4096).
  - reflexivity.
  - reflexivity.
  - vm_compute. reflexivity.
Defined.

Lemma filter_ignores_kind_witness :
  filter [scalar_filter ["gpu"]] offer_gpu = filter [text_filter ["gpu"]] offer_gpu.
Proof.
  apply (proj1 filter_ignores_kind [scalar_filter ["gpu"]] [text_filter ["gpu"]]
           offer_gpu).
  reflexivity.
Defined.

(** C3, as stated, fails: registering a filter of kind scalar changes what
    [Assign] admits.  The task that got the offer with no filter registered
    does not get it once the scalar filter is there; and a scalar filter
    whose first term is a text attribute of the offer lets the offer in, also
    next to a text filter that does not. *)
Lemma scalar_filter_changes_admission :
  AddFilter (pool_of [offer_4_4096]) (task_cpu "task" 1) [scalar_filter ["1"]]
  = Return ({| offers := [pool_entry offer_4_4096 4 4096 None false];
               filterOn := {[ "task" := [scalar_filter ["1"]] ]};
               strategy := ∅ |}, None)
  ∧ Assign (pool_of [offer_4_4096]) (task_cpu "task" 1)
    = Return (NewDefaultResourceManager, inl offer_4_4096)
  ∧ Assign {| offers := [pool_entry offer_4_4096 4 4096 None false];
              filterOn := {[ "task" := [scalar_filter ["1"]] ]};
              strategy := ∅ |} (task_cpu "task" 1)
    = Return ({| offers := [pool_entry offer_4_4096 4 4096 None false];
                 filterOn := {[ "task" := [scalar_filter ["1"]] ]};
                 strategy := ∅ |},
              inr "Cannot find a suitable offer for task task")
  ∧ filter [scalar_filter ["gpu"]] offer_gpu = true
  ∧ filter [scalar_filter ["gpu"]] offer_4_4096 = false
  ∧ filter [text_filter ["ssd"]] offer_gpu = false
  ∧ filter [text_filter ["ssd"]; scalar_filter ["gpu"]] offer_gpu = true.
Proof. by vm_compute. Qed.

Lemma disk_demand_sets_entry_disk_witness :
  Assign_resources
    [disk_resource 5 (Some (DiskInfo "demanded")); scalar_resource "cpus" 1]
    (pool_entry offer_disk 4 4096 (Some (DiskInfo "offered")) false)
  = Assign_resources [scalar_resource "cpus" 1]
      (pool_entry offer_disk 4 4096 (Some (DiskInfo "demanded")) false).
Proof.
  apply (proj1 disk_demand_sets_entry_disk
           (disk_resource 5 (Some (DiskInfo "demanded")))
           [scalar_resource "cpus" 1]
           (pool_entry offer_disk 4 4096 (Some (DiskInfo "offered")) false)).
  reflexivity.
Defined.

(** C5, as stated, fails: the entry built from an offer whose disk descriptor
    is "offered" carries, after the task with a disk demand of descriptor
    "demanded" was assigned to it, the descriptor "demanded"; the offer's own
    descriptor is not what the match holds. *)
Lemma disk_demand_replaces_offer_descriptor :
  offers (mux_pool [offer_disk] "task")
  = [pool_entry offer_disk 4 4096 (Some (DiskInfo "offered")) false]
  ∧ Assign (mux_pool [offer_disk] "task") (task_disk "task")
    = Return (with_offers (mux_pool [offer_disk] "task")
                [pool_entry offer_disk 3 4096 (Some (DiskInfo "demanded")) true],
              inl offer_disk)
  ∧ Some (DiskInfo "demanded") ≠ Some (DiskInfo "offered").
Proof. by vm_compute. Qed.

Lemma ClearFilters_undoes_AddFilter_witness :
  ClearFilters {| offers := []; filterOn := {[ "t" := [text_filter ["gpu"]] ]};
                  strategy := ∅ |} (task_cpu "t" 1)
  = ClearFilters NewDefaultResourceManager (task_cpu "t" 1).
Proof.
  apply (ClearFilters_undoes_AddFilter (task_cpu "t" 1)
           [text_filter ["gpu"]; bogus_filter] NewDefaultResourceManager _
           (Some "Invalid filter passed in: bogus. Allowed filters are SCALAR, TEXT, SET, RANGES, and STRATEGY.")).
  reflexivity.
Defined.

Lemma AddFilter_other_tasks_witness :
  offers {| offers := []; filterOn := {[ "t" := [text_filter ["gpu"]] ]};
            strategy := {[ "t" := "mux" ]} |}
  = offers NewDefaultResourceManager
  ∧ filterOn {| offers := []; filterOn := {[ "t" := [text_filter ["gpu"]] ]};
                strategy := {[ "t" := "mux" ]} |}
      !! TaskInfo_Name (task_cpu "other" 1)
    = filterOn NewDefaultResourceManager !! TaskInfo_Name (task_cpu "other" 1)
  ∧ strategy {| offers := []; filterOn := {[ "t" := [text_filter ["gpu"]] ]};
                strategy := {[ "t" := "mux" ]} |}
      !! TaskInfo_Name (task_cpu "other" 1)
    = strategy NewDefaultResourceManager !! TaskInfo_Name (task_cpu "other" 1).
Proof.
  apply (AddFilter_other_tasks (task_cpu "t" 1) (task_cpu "other" 1)
           [text_filter ["gpu"]; mux_filter] NewDefaultResourceManager
           {| offers := []; filterOn := {[ "t" := [text_filter ["gpu"]] ]};
              strategy := {[ "t" := "mux" ]} |} None).
  - reflexivity.
  - discriminate.
Defined.

Lemma AddFilter_appends_witness :
  AddFilter {| offers := []; filterOn := {[ "t" := [text_filter ["gpu"]] ]};
               strategy := ∅ |} (task_cpu "t" 1)
    [scalar_filter ["1"]; text_filter ["ssd"]]
  = Return ({| offers := [];
               filterOn :=
                 {[ "t" := [text_filter ["gpu"]; scalar_filter ["1"];
                            text_filter ["ssd"]] ]};
               strategy := ∅ |}, None).
Proof.
  etrans.
  - apply (AddFilter_appends (task_cpu "t" 1)
             [scalar_filter ["1"]; text_filter ["ssd"]]
             {| offers := []; filterOn := {[ "t" := [text_filter ["gpu"]] ]};
                strategy := ∅ |}).
    + repeat constructor.
    + discriminate.
  - vm_compute. reflexivity.
Defined.

Lemma AddFilter_strategy_overwrites_witness :
  AddFilter NewDefaultResourceManager (task_cpu "t" 1)
    [{| Filter_Type := "strategy"; Filter_Value := ["non-mux"] |}; mux_filter]
  = Return ({| offers := []; filterOn := ∅; strategy := {[ "t" := "mux" ]} |},
            None).
Proof.
  etrans.
  - apply (AddFilter_strategy_overwrites (task_cpu "t" 1)
             [{| Filter_Type := "strategy"; Filter_Value := ["non-mux"] |}]
             mux_filter "mux" [] NewDefaultResourceManager).
    + repeat constructor. discriminate.
    + reflexivity.
    + reflexivity.
  - vm_compute. reflexivity.
Defined.

Lemma Assign_without_filters_witness :
  Forall (λ o, snd (Assign_resources
                      (TaskInfo_Resources (task_cpu_mem "task" 1 200)) o) = false)
    (offers (pool_of [offer_4_100]))
  ↔ ∃ d', Assign (pool_of [offer_4_100]) (task_cpu_mem "task" 1 200)
          = Return (d', inr (not_found (task_cpu_mem "task" 1 200))).
Proof.
  apply (Assign_without_filters (pool_of [offer_4_100])
           (task_cpu_mem "task" 1 200)).
  reflexivity.
Defined.

Lemma failed_Assign_keeps_Offers_witness :
  Offers {| offers := [pool_entry offer_4_100 3 100 None false];
            filterOn := ∅; strategy := ∅ |}
  = Offers (pool_of [offer_4_100])
  ∧ map Offer (offers {| offers := [pool_entry offer_4_100 3 100 None false];
                         filterOn := ∅; strategy := ∅ |})
    = map Offer (offers (pool_of [offer_4_100]))
  ∧ map Accepted (offers {| offers := [pool_entry offer_4_100 3 100 None false];
                            filterOn := ∅; strategy := ∅ |})
    = map Accepted (offers (pool_of [offer_4_100])).
Proof.
  apply (failed_Assign_keeps_Offers (pool_of [offer_4_100]) _
           (task_cpu_mem "task" 1 200)
           "Cannot find a suitable offer for task task").
  vm_compute. reflexivity.
Defined.

Lemma Offers_after_Assign_witness :
  ∃ pre o post,
    offers (mux_pool [offer_4_4096; offer_4_100] "task-1")
    = (pre ++ o :: post)%list
    ∧ offer_4_4096 = Offer o
    ∧ Offers (with_offers (mux_pool [offer_4_4096; offer_4_100] "task-1")
                [pool_entry offer_4_4096 3 4096 None true;
                 pool_entry offer_4_100 4 100 None false])
      ≡ₚ map Offer (List.filter (λ o, negb (Accepted o)) (pre ++ post)%list).
Proof.
  apply (Offers_after_Assign (mux_pool [offer_4_4096; offer_4_100] "task-1") _
           (task_cpu "task-1" 1)).
  vm_compute. reflexivity.
Defined.

Lemma Assign_respects_filters_witness :
  ∃ f a term rest,
    f ∈ [text_filter ["gpu"; "ssd"]] ∧ a ∈ Offer_Attributes offer_gpu
    ∧ Attribute_Type a = TEXT
    ∧ Filter_Value f = term :: rest
    ∧ strings.ToLower term = strings.ToLower (Attribute_Text a).
Proof.
  apply (Assign_respects_filters
           {| offers := map AddOffers_entry [offer_4_4096; offer_gpu];
              filterOn := {[ "task" := [text_filter ["gpu"; "ssd"]] ]};
              strategy := ∅ |}
           {| offers := map AddOffers_entry [offer_4_4096];
              filterOn := {[ "task" := [text_filter ["gpu"; "ssd"]] ]};
              strategy := ∅ |}
           (task_cpu "task" 1) offer_gpu).
  - reflexivity.
  - vm_compute. reflexivity.
Defined.

Lemma failed_Assign_single_demand_witness :
  Assign (pool_of [offer_4_100]) (task_cpu "task" 5)
  = Return (pool_of [offer_4_100],
            inr "Cannot find a suitable offer for task task")
  ∧ pool_of [offer_4_100] = pool_of [offer_4_100].
Proof.
  split; [by vm_compute|].
  apply (failed_Assign_single_demand (pool_of [offer_4_100]) _
           (task_cpu "task" 5) (scalar_resource "cpus" 5)
           "Cannot find a suitable offer for task task").
  - reflexivity.
  - by left.
  - vm_compute. reflexivity.
Defined.

Lemma Assign_resources_conserves_witness :
  Cpu (fst (Assign_resources
              [scalar_resource "cpus" 1; scalar_resource "mem" 96;
               scalar_resource "cpus" 2]
              (pool_entry offer_4_100 4 100 None false)))
  = fold_left (λ acc r, (acc - Resource_Scalar r)%float)
      (List.filter (λ r, String.eqb (Resource_Name r) "cpus")
         [scalar_resource "cpus" 1; scalar_resource "mem" 96;
          scalar_resource "cpus" 2])
      (Cpu (pool_entry offer_4_100 4 100 None false))
  ∧ Mem (fst (Assign_resources
                [scalar_resource "cpus" 1; scalar_resource "mem" 96;
                 scalar_resource "cpus" 2]
                (pool_entry offer_4_100 4 100 None false)))
    = fold_left (λ acc r, (acc - Resource_Scalar r)%float)
        (List.filter (λ r, String.eqb (Resource_Name r) "mem")
           [scalar_resource "cpus" 1; scalar_resource "mem" 96;
            scalar_resource "cpus" 2])
        (Mem (pool_entry offer_4_100 4 100 None false)).
Proof.
  apply (Assign_resources_conserves
           [scalar_resource "cpus" 1; scalar_resource "mem" 96;
            scalar_resource "cpus" 2]
           (pool_entry offer_4_100 4 100 None false)).
  reflexivity.
Defined.

Lemma ParseContainer_volume_error_witness :
  container.ParseContainer (Some (sample_container None None ["data"; ""]))
  = Return (None, Some "Error parsing volume JSON: empty volume")
  ∧ container.ParseContainer None = Return (None, None).
Proof.
  apply (ParseContainer_volume_error (sample_container None None ["data"; ""]) []
           "empty volume").
  - discriminate.
  - reflexivity.
Defined.

Lemma ParseContainer_needs_image_witness :
  container.ParseContainer (Some (sample_container None (Some "docker") ["data"]))
  = Panic "runtime error: invalid memory address or nil pointer dereference".
Proof.
  apply (proj1 ParseContainer_needs_image
           (sample_container None (Some "docker") ["data"]) ["data"]).
  - reflexivity.
  - right. reflexivity.
Defined.

Lemma ParseContainer_type_witness :
  container.ParseContainer (Some (sample_container (Some "nginx") (Some "Docker") []))
  = Return (Some (sample_docker_info "nginx"), None)
  ∧ (container.Type_ (sample_docker_info "nginx") = container.ContainerInfo_DOCKER
     ↔ ∃ ty, Some "Docker" = Some ty ∧ strings.ToLower ty = "docker").
Proof.
  split; [reflexivity|].
  apply (ParseContainer_type (sample_container (Some "nginx") (Some "Docker") [])
           (sample_docker_info "nginx") None).
  reflexivity.
Defined.

Lemma Assign_other_strategy_single_use_witness :
  length (offers {| offers := []; filterOn := ∅;
                    strategy := {[ "task" := "multiplex" ]} |}) + 1
  = length (offers {| offers := map AddOffers_entry [offer_4_4096];
                      filterOn := ∅;
                      strategy := {[ "task" := "multiplex" ]} |})
  ∧ ∃ pre o post,
      offers {| offers := map AddOffers_entry [offer_4_4096]; filterOn := ∅;
                strategy := {[ "task" := "multiplex" ]} |}
      = (pre ++ o :: post)%list
      ∧ offer_4_4096 = Offer o
      ∧ offers {| offers := []; filterOn := ∅;
                  strategy := {[ "task" := "multiplex" ]} |}
        ≡ₚ (map (scanned {| offers := map AddOffers_entry [offer_4_4096];
                            filterOn := ∅;
                            strategy := {[ "task" := "multiplex" ]} |}
                   (task_cpu "task" 1)) pre ++ post)%list.
Proof.
  apply (Assign_other_strategy_single_use
           {| offers := map AddOffers_entry [offer_4_4096]; filterOn := ∅;
              strategy := {[ "task" := "multiplex" ]} |}
           {| offers := []; filterOn := ∅;
              strategy := {[ "task" := "multiplex" ]} |}
           (task_cpu "task" 1) "multiplex" offer_4_4096).
  - reflexivity.
  - reflexivity.
  - vm_compute. reflexivity.
Defined.
